(** * ToolHttpRequest utilities: authenticated dispatch and response optimizers

    A shallow embedding of
    [packages/@n8n/nodes-langchain/nodes/tools/ToolHttpRequest/utils.ts]:
    [getOAuth2AdditionalParameters], [configureHttpRequestFunction] and
    [configureResponseOptimizer], with the properties their specification
    states about them.

    Conventions of the embedding.
    - A JavaScript string is the sequence of its code units; [string] holds
      the code units below 256, [String.length] is [.length].
    - A JavaScript value is a [value]; an object is the association list of
      its own enumerable properties in insertion order.  Its prototype is
      [Object.prototype] as the runtime starts with it: a property read goes
      on to the inherited properties when the object has no own one, and an
      assignment to [__proto__] reaches the inherited setter, which stores
      no own property.  What the prototypes of arrays, strings, numbers,
      booleans and of the built-in objects themselves hold varies with the
      runtime and is a parameter, [builtin_get].
    - A function that may throw returns a [result]; [Throw e] is the
      exception [e].
    - [requestOptions] is mutated in place by the source and then handed to
      a collaborator.  The closures built by [configureHttpRequestFunction]
      return the [call] they end with; the request it carries is the state of
      the caller's object at that moment.  Every [Throw] of these closures
      happens before the first mutation.
    - Library code the file imports (the JSON built-ins, lodash, cheerio,
      html-to-text) is a [Variable] of the section [Utils]; where the
      library may throw, the variable returns a [result]. *)

From Stdlib Require Import String Ascii List ZArith Bool Lia.
From Stdlib Require Import Numbers.DecimalString.
Import ListNotations.

Open Scope string_scope.
Open Scope list_scope.
Open Scope Z_scope.

(** ** JavaScript numbers *)

(** [Finite m e] is [m * 2^e]; every double is one of these values. *)
Inductive number : Type :=
| Finite (m e : Z)
| Infinity (negative : bool)
| NaN.

Definition number_of_Z (n : Z) : number := Finite n 0.

Definition number_of_nat (n : nat) : number := Finite (Z.of_nat n) 0.

(** Both mantissas brought to the smaller of two exponents. *)
Definition align (m1 e1 m2 e2 : Z) : Z * Z :=
  let e := Z.min e1 e2 in
  (m1 * 2 ^ (e1 - e), m2 * 2 ^ (e2 - e)).

(** [x > y] on numbers. *)
Definition number_gt (x y : number) : bool :=
  match x, y with
  | NaN, _ | _, NaN => false
  | Infinity nx, Infinity ny => negb nx && ny
  | Infinity nx, Finite _ _ => negb nx
  | Finite _ _, Infinity ny => ny
  | Finite m1 e1, Finite m2 e2 =>
      let '(a, b) := align m1 e1 m2 e2 in b <? a
  end.

(** ToIntegerOrInfinity, clamped to [0, len] as [substring] does with its
    bounds. *)
Definition clamp_index (x : number) (len : Z) : Z :=
  match x with
  | NaN => 0
  | Infinity true => 0
  | Infinity false => len
  | Finite m e =>
      let t := if 0 <=? e then m * 2 ^ e else Z.quot m (2 ^ (- e)) in
      Z.min (Z.max t 0) len
  end.

(** ** JavaScript values *)

(** [JNative] is a built-in object of the runtime that a property read can
    reach through a prototype: a function when [callable], with [name] its
    name, and else an object such as [Object.prototype]. *)

#[warnings="-register-all"]
Inductive value : Type :=
| JUndefined
| JNull
| JBool (b : bool)
| JNumber (n : number)
| JString (s : string)
| JArray (elements : list value)
| JObject (properties : list (string * value))
| JNative (callable : bool) (name : string).

Definition IDataObject : Type := list (string * value).

(** [requestOptions.headers] and the like as a value. *)
Definition of_optional (o : option IDataObject) : value :=
  match o with
  | Some x => JObject x
  | None => JUndefined
  end.

Definition typeof (v : value) : string :=
  match v with
  | JUndefined => "undefined"
  | JNull => "object"
  | JBool _ => "boolean"
  | JNumber _ => "number"
  | JString _ => "string"
  | JArray _ => "object"
  | JObject _ => "object"
  | JNative callable _ => if callable then "function" else "object"
  end.

Definition number_truthy (n : number) : bool :=
  match n with
  | Finite m _ => negb (m =? 0)
  | Infinity _ => true
  | NaN => false
  end.

Definition string_truthy (s : string) : bool :=
  match s with
  | EmptyString => false
  | String _ _ => true
  end.

(** ToBoolean. *)
Definition truthy (v : value) : bool :=
  match v with
  | JUndefined => false
  | JNull => false
  | JBool b => b
  | JNumber n => number_truthy n
  | JString s => string_truthy s
  | JArray _ => true
  | JObject _ => true
  | JNative _ _ => true
  end.

(** ** Strings *)

Definition string_of_nat (n : nat) : string :=
  NilEmpty.string_of_uint (Nat.to_uint n).

(** White space and line terminators, as [\s] and [trim] see them. *)
Definition is_space (c : ascii) : bool :=
  match nat_of_ascii c with
  | 9%nat | 10%nat | 11%nat | 12%nat | 13%nat | 32%nat | 160%nat => true
  | _ => false
  end.

Definition is_newline (c : ascii) : bool :=
  match nat_of_ascii c with
  | 10%nat | 13%nat => true
  | _ => false
  end.

Fixpoint trimStart (s : string) : string :=
  match s with
  | EmptyString => EmptyString
  | String c s' => if is_space c then trimStart s' else s
  end.

Fixpoint string_rev (s : string) : string :=
  match s with
  | EmptyString => EmptyString
  | String c s' => String.append (string_rev s') (String c EmptyString)
  end.

Definition trimEnd (s : string) : string :=
  string_rev (trimStart (string_rev s)).

(** [s.trim()]; it is also [s.replace(/^\s+|\s+$/g, '')]. *)
Definition trim (s : string) : string := trimEnd (trimStart s).

(** [s.replace(/(\r\n|\n|\r)/gm, '')]. *)
Fixpoint remove_newlines (s : string) : string :=
  match s with
  | EmptyString => EmptyString
  | String c s' =>
      if is_newline c then remove_newlines s' else String c (remove_newlines s')
  end.

(** [s.replace(/\s+/g, ' ')]: every maximal run of white space becomes one
    space.  [in_run] tells that the previous code unit was white space. *)
Fixpoint collapse_from (in_run : bool) (s : string) : string :=
  match s with
  | EmptyString => EmptyString
  | String c s' =>
      if is_space c
      then (if in_run then collapse_from true s'
            else String " "%char (collapse_from true s'))
      else String c (collapse_from false s')
  end.

Definition collapse_spaces (s : string) : string := collapse_from false s.

(** [s.split(sep)] for a separator of one code unit. *)
Fixpoint split_from (sep : ascii) (acc : string) (s : string) : list string :=
  match s with
  | EmptyString => [string_rev acc]
  | String c s' =>
      if Ascii.eqb c sep
      then string_rev acc :: split_from sep EmptyString s'
      else split_from sep (String c acc) s'
  end.

Definition split (sep : ascii) (s : string) : list string :=
  split_from sep EmptyString s.

(** [s.substring(0, end)]. *)
Definition substring_to (s : string) (end_ : number) : string :=
  String.substring 0
    (Z.to_nat (clamp_index end_ (Z.of_nat (String.length s)))) s.

(** ** Errors and results *)

(** The node a [NodeOperationError] is raised for, [ctx.getNode()]. *)
Record INode : Type := {
  node_name : string;
  node_type : string
}.

Inductive error : Type :=
| NodeOperationError (node : INode) (message : string) (itemIndex : Z)
| ParseError (message : string)
| SyntaxError (message : string)
| TypeError (message : string)
| CollaboratorError (message : string).

Definition error_message (e : error) : string :=
  match e with
  | NodeOperationError _ m _ => m
  | ParseError m => m
  | SyntaxError m => m
  | TypeError m => m
  | CollaboratorError m => m
  end.

(** The item index an error was built with, when it was built with one. *)
Definition error_itemIndex (e : error) : option Z :=
  match e with
  | NodeOperationError _ _ i => Some i
  | _ => None
  end.

Inductive result (A : Type) : Type :=
| Ok (a : A)
| Throw (e : error).

Arguments Ok {A} a.
Arguments Throw {A} e.

Definition bind {A B : Type} (r : result A) (k : A -> result B) : result B :=
  match r with
  | Ok a => k a
  | Throw e => Throw e
  end.

Notation "x <- r ;; k" := (bind r (fun x => k))
  (at level 61, r at next level, right associativity).

(** [xs.map(f)] for a callback that may throw: the first exception ends the
    loop. *)
Fixpoint mapM {A B : Type} (f : A -> result B) (xs : list A) : result (list B) :=
  match xs with
  | [] => Ok []
  | x :: xs' => y <- f x ;; ys <- mapM f xs' ;; Ok (y :: ys)
  end.

(** One entry of the [selectors] option of html-to-text. *)
Record SelectorDefinition : Type := {
  selector : string;
  format : string
}.

Section Utils.

(** ** Imported library code *)

(** [Number.prototype.toString]. *)
Variable Number_toString : number -> string.

(** [JSON.parse]; on a text that is not JSON it throws, a [SyntaxError]. *)
Variable JSON_parse : string -> result value.

(** [JSON.stringify(v, null, 2)]. *)
Variable JSON_stringify : value -> string.

(** lodash [get], [set] and [unset]; the last two give the object after the
    update. *)
Variable lodash_get : value -> string -> value.
Variable lodash_set : value -> string -> value -> value.
Variable lodash_unset : value -> string -> value.

(** cheerio: [cheerio_html doc sel] loads [doc] and gives [.html()] of every
    element matching [sel], in document order; [None] is [null].  It throws
    on a selector it cannot parse. *)
Variable cheerio_html : string -> string -> result (list (option string)).

(** html-to-text [convert]; [None] is an [undefined] options argument.  It
    throws on options it cannot use, such as a selector it cannot parse. *)
Variable convert : string -> option (list SelectorDefinition) -> result string.

(** The built-in objects of the runtime: [builtin_get v k] is [v[k]] for a
    [v] that is an array, a string, a number, a boolean or a built-in
    object, once the indices and the [length] of an array or string are set
    aside; it is what [Array.prototype], [String.prototype] and the like
    hold under [k], [undefined] when they hold nothing. *)
Variable builtin_get : value -> string -> value.

(** ** Objects and property access *)

(** The own property [k] of an object, when it has one. *)
Fixpoint obj_lookup (o : IDataObject) (k : string) : option value :=
  match o with
  | [] => None
  | (k', v) :: o' => if String.eqb k' k then Some v else obj_lookup o' k
  end.

(** The properties every object inherits from [Object.prototype]:
    [__proto__] gives the prototype itself, [constructor] the function
    [Object], the other ten names the method of that name. *)
Definition Object_prototype (k : string) : option value :=
  if String.eqb k "__proto__" then Some (JNative false "Object.prototype")
  else if String.eqb k "constructor" then Some (JNative true "Object")
  else if existsb (String.eqb k)
            [ "__defineGetter__"; "__defineSetter__"; "hasOwnProperty";
              "__lookupGetter__"; "__lookupSetter__"; "isPrototypeOf";
              "propertyIsEnumerable"; "toString"; "valueOf";
              "toLocaleString" ]
       then Some (JNative true k)
  else None.

(** [o[k]] on an object: its own property, else the inherited one, else
    [undefined]. *)
Definition obj_get (o : IDataObject) (k : string) : value :=
  match obj_lookup o k with
  | Some v => v
  | None =>
      match Object_prototype k with
      | Some member => member
      | None => JUndefined
      end
  end.

(** CreateDataProperty, what an object literal and a spread do with each
    key: the own property [k] is added or replaced. *)
Fixpoint define_property (o : IDataObject) (k : string) (v : value)
  : IDataObject :=
  match o with
  | [] => [(k, v)]
  | (k', v') :: o' =>
      if String.eqb k' k then (k, v) :: o'
      else (k', v') :: define_property o' k v
  end.

(** [o[k] = v] on an object.  Under [__proto__], unless the object has an
    own property of that name, the assignment runs the setter inherited from
    [Object.prototype]: it stores nothing, so the own properties stay as
    they are. *)
Definition set_property (o : IDataObject) (k : string) (v : value)
  : IDataObject :=
  if String.eqb k "__proto__" then
    match obj_lookup o k with
    | Some _ => define_property o k v
    | None => o
    end
  else define_property o k v.

(** The indexed properties of a string and of an array, from index [i] on:
    the key of an element is its index in decimal. *)
Fixpoint chars_from (i : nat) (s : string) : IDataObject :=
  match s with
  | EmptyString => []
  | String c s' =>
      (string_of_nat i, JString (String c EmptyString)) :: chars_from (S i) s'
  end.

Fixpoint elements_from (i : nat) (l : list value) : IDataObject :=
  match l with
  | [] => []
  | x :: l' => (string_of_nat i, x) :: elements_from (S i) l'
  end.

(** The own enumerable properties, what [{...v}] copies. *)
Definition own_enumerable (v : value) : IDataObject :=
  match v with
  | JObject o => o
  | JArray l => elements_from 0 l
  | JString s => chars_from 0 s
  | _ => []
  end.

(** [v[k]] for a [v] that is neither [null] nor [undefined]. *)
Definition get_property (v : value) (k : string) : value :=
  match v with
  | JObject o => obj_get o k
  | JArray l =>
      if String.eqb k "length" then JNumber (number_of_nat (List.length l))
      else match obj_lookup (elements_from 0 l) k with
           | Some x => x
           | None => builtin_get v k
           end
  | JString s =>
      if String.eqb k "length" then JNumber (number_of_nat (String.length s))
      else match obj_lookup (chars_from 0 s) k with
           | Some c => c
           | None => builtin_get v k
           end
  | _ => builtin_get v k
  end.

Definition quoted (k : string) : string :=
  String.append "'" (String.append k "'").

(** [v[k]]. *)
Definition prop_read (v : value) (k : string) : result value :=
  match v with
  | JUndefined =>
      Throw (TypeError (String.append
        "Cannot read properties of undefined (reading "
        (String.append (quoted k) ")")))
  | JNull =>
      Throw (TypeError (String.append
        "Cannot read properties of null (reading "
        (String.append (quoted k) ")")))
  | _ => Ok (get_property v k)
  end.

(** [{...a, ...b}]. *)
Definition assign (target : IDataObject) (source : IDataObject) : IDataObject :=
  fold_left (fun acc kv => define_property acc (fst kv) (snd kv))
    source target.

Definition spread (a b : value) : IDataObject :=
  assign (assign [] (own_enumerable a)) (own_enumerable b).

(** ** Requests and collaborators *)

Record IOAuth2Options : Type := {
  tokenType : option string;
  includeCredentialsOnRefreshOnBody : option bool;
  keepBearer : option bool;
  tokenExpiredStatusCode : option Z;
  property : option string;
  keyToIncludeInAccessTokenHeader : option string
}.

(** What [oAuth2Options[nodeCredentialType]] can be, apart from
    [undefined]: an entry of the table, or a property the table inherits
    from [Object.prototype]. *)
Inductive OAuth2Parameters : Type :=
| TableEntry (options : IOAuth2Options)
| PrototypeMember (member : value).

(** The third argument of [requestWithAuthentication]. *)
Record IAdditionalCredentialOptions : Type := {
  oauth2 : OAuth2Parameters
}.

Record BasicAuth : Type := {
  username : value;
  password : value;
  sendImmediately : option bool
}.

(** The fields of [IHttpRequestOptions] the strategies touch, and the two
    every request has. *)
Record IHttpRequestOptions : Type := {
  url : string;
  method : string;
  headers : option IDataObject;
  qs : option IDataObject;
  body : value;
  auth : option BasicAuth
}.

Definition set_headers (r : IHttpRequestOptions) (h : IDataObject) :=
  {| url := url r; method := method r; headers := Some h; qs := qs r;
     body := body r; auth := auth r |}.

Definition set_qs (r : IHttpRequestOptions) (q : IDataObject) :=
  {| url := url r; method := method r; headers := headers r; qs := Some q;
     body := body r; auth := auth r |}.

Definition set_body (r : IHttpRequestOptions) (b : value) :=
  {| url := url r; method := method r; headers := headers r; qs := qs r;
     body := b; auth := auth r |}.

Definition set_auth (r : IHttpRequestOptions) (a : BasicAuth) :=
  {| url := url r; method := method r; headers := headers r; qs := qs r;
     body := body r; auth := Some a |}.

(** The collaborator call a request closure ends with. *)
Inductive call : Type :=
| httpRequest (requestOptions : IHttpRequestOptions)
| requestOAuth1 (credentialsType : string) (requestOptions : IHttpRequestOptions)
| requestOAuth2 (credentialsType : string) (requestOptions : IHttpRequestOptions)
    (oAuth2Options : IOAuth2Options)
| requestWithAuthentication (credentialsType : string)
    (requestOptions : IHttpRequestOptions)
    (additionalCredentialOptions : option IAdditionalCredentialOptions)
    (itemIndex : Z).

(** [IExecuteFunctions], as far as the file uses it.  [getNodeParameter] is
    read at the type its call site casts the result to; the third argument is
    the fallback value, when the call passes one. *)
Record IExecuteFunctions : Type := {
  getNodeParameter_string : string -> Z -> option string -> result string;
  getNodeParameter_boolean : string -> Z -> option bool -> result bool;
  getNodeParameter_number : string -> Z -> option number -> result number;
  getNodeParameter_strings :
    string -> Z -> option (string + list string) -> result (string + list string);
  getCredentials : string -> Z -> result IDataObject;
  getNode : INode;
  helpers_httpRequest : IHttpRequestOptions -> result value;
  helpers_requestOAuth1 : string -> IHttpRequestOptions -> result value;
  helpers_requestOAuth2 :
    string -> IHttpRequestOptions -> IOAuth2Options -> result value;
  helpers_requestWithAuthentication :
    string -> IHttpRequestOptions -> option IAdditionalCredentialOptions ->
    Z -> result value
}.

(** Running the call against the helpers of [ctx]. *)
Definition perform (ctx : IExecuteFunctions) (c : call) : result value :=
  match c with
  | httpRequest r => helpers_httpRequest ctx r
  | requestOAuth1 t r => helpers_requestOAuth1 ctx t r
  | requestOAuth2 t r o => helpers_requestOAuth2 ctx t r o
  | requestWithAuthentication t r a i =>
      helpers_requestWithAuthentication ctx t r a i
  end.

(** ** The static table of OAuth2 quirks *)

Definition oAuth2Options : list (string * IOAuth2Options) :=
  [ ("bitlyOAuth2Api",
     {| tokenType := Some "Bearer";
        includeCredentialsOnRefreshOnBody := None; keepBearer := None;
        tokenExpiredStatusCode := None; property := None;
        keyToIncludeInAccessTokenHeader := None |});
    ("boxOAuth2Api",
     {| tokenType := None;
        includeCredentialsOnRefreshOnBody := Some true; keepBearer := None;
        tokenExpiredStatusCode := None; property := None;
        keyToIncludeInAccessTokenHeader := None |});
    ("ciscoWebexOAuth2Api",
     {| tokenType := Some "Bearer";
        includeCredentialsOnRefreshOnBody := None; keepBearer := None;
        tokenExpiredStatusCode := None; property := None;
        keyToIncludeInAccessTokenHeader := None |});
    ("clickUpOAuth2Api",
     {| tokenType := Some "Bearer";
        includeCredentialsOnRefreshOnBody := None; keepBearer := Some false;
        tokenExpiredStatusCode := None; property := None;
        keyToIncludeInAccessTokenHeader := None |});
    ("goToWebinarOAuth2Api",
     {| tokenType := None;
        includeCredentialsOnRefreshOnBody := None; keepBearer := None;
        tokenExpiredStatusCode := Some 403; property := None;
        keyToIncludeInAccessTokenHeader := None |});
    ("hubspotDeveloperApi",
     {| tokenType := Some "Bearer";
        includeCredentialsOnRefreshOnBody := Some true; keepBearer := None;
        tokenExpiredStatusCode := None; property := None;
        keyToIncludeInAccessTokenHeader := None |});
    ("hubspotOAuth2Api",
     {| tokenType := Some "Bearer";
        includeCredentialsOnRefreshOnBody := Some true; keepBearer := None;
        tokenExpiredStatusCode := None; property := None;
        keyToIncludeInAccessTokenHeader := None |});
    ("lineNotifyOAuth2Api",
     {| tokenType := Some "Bearer";
        includeCredentialsOnRefreshOnBody := None; keepBearer := None;
        tokenExpiredStatusCode := None; property := None;
        keyToIncludeInAccessTokenHeader := None |});
    ("linkedInOAuth2Api",
     {| tokenType := Some "Bearer";
        includeCredentialsOnRefreshOnBody := None; keepBearer := None;
        tokenExpiredStatusCode := None; property := None;
        keyToIncludeInAccessTokenHeader := None |});
    ("mailchimpOAuth2Api",
     {| tokenType := Some "Bearer";
        includeCredentialsOnRefreshOnBody := None; keepBearer := None;
        tokenExpiredStatusCode := None; property := None;
        keyToIncludeInAccessTokenHeader := None |});
    ("mauticOAuth2Api",
     {| tokenType := None;
        includeCredentialsOnRefreshOnBody := Some true; keepBearer := None;
        tokenExpiredStatusCode := None; property := None;
        keyToIncludeInAccessTokenHeader := None |});
    ("microsoftDynamicsOAuth2Api",
     {| tokenType := None;
        includeCredentialsOnRefreshOnBody := None; keepBearer := None;
        tokenExpiredStatusCode := None; property := Some "id_token";
        keyToIncludeInAccessTokenHeader := None |});
    ("philipsHueOAuth2Api",
     {| tokenType := Some "Bearer";
        includeCredentialsOnRefreshOnBody := None; keepBearer := None;
        tokenExpiredStatusCode := None; property := None;
        keyToIncludeInAccessTokenHeader := None |});
    ("raindropOAuth2Api",
     {| tokenType := None;
        includeCredentialsOnRefreshOnBody := Some true; keepBearer := None;
        tokenExpiredStatusCode := None; property := None;
        keyToIncludeInAccessTokenHeader := None |});
    ("shopifyOAuth2Api",
     {| tokenType := Some "Bearer";
        includeCredentialsOnRefreshOnBody := None; keepBearer := None;
        tokenExpiredStatusCode := None; property := None;
        keyToIncludeInAccessTokenHeader := Some "X-Shopify-Access-Token" |});
    ("slackOAuth2Api",
     {| tokenType := Some "Bearer";
        includeCredentialsOnRefreshOnBody := None; keepBearer := None;
        tokenExpiredStatusCode := None;
        property := Some "authed_user.access_token";
        keyToIncludeInAccessTokenHeader := None |});
    ("stravaOAuth2Api",
     {| tokenType := None;
        includeCredentialsOnRefreshOnBody := Some true; keepBearer := None;
        tokenExpiredStatusCode := None; property := None;
        keyToIncludeInAccessTokenHeader := None |}) ].

Fixpoint table_lookup {A : Type} (t : list (string * A)) (k : string) : option A :=
  match t with
  | [] => None
  | (k', a) :: t' => if String.eqb k' k then Some a else table_lookup t' k
  end.

(** [oAuth2Options[nodeCredentialType]] on the object literal: the entry of
    that name, else what the literal inherits under that name; [None] is
    [undefined]. *)
Definition getOAuth2AdditionalParameters (nodeCredentialType : string)
  : option OAuth2Parameters :=
  match table_lookup oAuth2Options nodeCredentialType with
  | Some options => Some (TableEntry options)
  | None =>
      match Object_prototype nodeCredentialType with
      | Some member => Some (PrototypeMember member)
      | None => None
      end
  end.

(** ** The specification's reading of [dataField] *)

(** Dotted-path traversal: each segment reads one property, a missing
    intermediate value gives [undefined]. *)
Fixpoint get_path (v : value) (path : list string) : value :=
  match path with
  | [] => v
  | k :: path' =>
      match v with
      | JUndefined | JNull => JUndefined
      | _ => get_path (get_property v k) path'
      end
  end.

Definition get_dotted (v : value) (path : string) : value :=
  get_path v (split "."%char path).

(** The working array as the specification words it, for a [dataField] that
    is set: the value at the dotted path, wrapped unless it is an array, or
    the one-to-one image of an array response. *)
Definition spec_unwrapDataField (responseData : value) (dataField : string)
  : list value :=
  match responseData with
  | JArray items => map (fun data => get_dotted data dataField) items
  | _ =>
      match get_dotted responseData dataField with
      | JArray items => items
      | data => [data]
      end
  end.

(** The seven generic credential kinds of the specification. *)
Definition recognizedKinds : list string :=
  [ "httpBasicAuth"; "httpDigestAuth"; "httpHeaderAuth"; "httpQueryAuth";
    "httpCustomAuth"; "oAuth1Api"; "oAuth2Api" ].

Definition nullish (v : value) : bool :=
  match v with
  | JUndefined | JNull => true
  | _ => false
  end.

(** ** A fixed node and runtime for the examples *)

(** A context whose node parameters and credentials are the same for every
    item: a parameter missing from its table is the fallback of the call, or
    an error of the collaborator when the call has none. *)
Definition lookup_or {A : Type} (t : list (string * A)) (name : string)
  (fallback : option A) : result A :=
  match table_lookup t name with
  | Some a => Ok a
  | None =>
      match fallback with
      | Some a => Ok a
      | None => Throw (CollaboratorError "Could not get parameter")
      end
  end.

Definition fixed_ctx (strings : list (string * string))
  (booleans : list (string * bool)) (numbers : list (string * number))
  (credentials : IDataObject) : IExecuteFunctions :=
  {| getNodeParameter_string := fun name _ fallback =>
       lookup_or strings name fallback;
     getNodeParameter_boolean := fun name _ fallback =>
       lookup_or booleans name fallback;
     getNodeParameter_number := fun name _ fallback =>
       lookup_or numbers name fallback;
     getNodeParameter_strings := fun name _ fallback =>
       lookup_or [] name fallback;
     getCredentials := fun _ _ => Ok credentials;
     getNode := {| node_name := "HTTP Request"; node_type := "toolHttpRequest" |};
     helpers_httpRequest := fun _ => Ok JNull;
     helpers_requestOAuth1 := fun _ _ => Ok JNull;
     helpers_requestOAuth2 := fun _ _ _ => Ok JNull;
     helpers_requestWithAuthentication := fun _ _ _ _ => Ok JNull |}.

(** [JSON.parse] on the texts the examples parse; every other text is
    rejected, as the malformed ones among them (the empty text, a lone
    opening brace) are. *)
Definition parse_literal (text : string) : result value :=
  match table_lookup
          [ ("{}", JObject []); ("[]", JArray []); ("null", JNull);
            ("true", JBool true); ("false", JBool false) ]
          text with
  | Some v => Ok v
  | None => Throw (SyntaxError "Unexpected end of JSON input")
  end.

(** Decimal printing of the integers; the examples print no other number. *)
Definition print_integer (n : number) : string :=
  match n with
  | Finite m e => NilEmpty.string_of_int (Z.to_int (m * 2 ^ e))
  | Infinity negative => if negative then "-Infinity" else "Infinity"
  | NaN => "NaN"
  end.

Definition example_request : IHttpRequestOptions :=
  {| url := "https://example.com/items";
     method := "GET";
     headers := Some [("Accept", JString "application/json")];
     qs := None;
     body := JUndefined;
     auth := None |}.

(** Library code the examples never reach: inert stand-ins. *)
Definition stringify_unused (v : value) : string := "".

Definition set_unused (o : value) (path : string) (v : value) : value := o.

Definition unset_unused (o : value) (path : string) : value := o.

Definition cheerio_unused (document sel : string)
  : result (list (option string)) := Ok [].

Definition convert_unused (html : string)
  (options : option (list SelectorDefinition)) : result string := Ok html.

Definition builtin_unused (v : value) (k : string) : value := JUndefined.

(** A cheerio that knows one document and one selector and cannot parse the
    selector [li[], and a flattener that rejects an empty selector. *)
Definition cheerio_example (document sel : string)
  : result (list (option string)) :=
  if String.eqb sel "li[" then Throw (CollaboratorError "Unmatched selector")
  else if String.eqb sel "li" && String.eqb document "<li>One</li>"
       then Ok [Some "One"]
  else Ok [].

Definition convert_example (html : string)
  (options : option (list SelectorDefinition)) : result string :=
  match options with
  | Some selectors =>
      if existsb (fun d => String.eqb (selector d) "") selectors
      then Throw (CollaboratorError "Invalid selector")
      else Ok html
  | None => Ok html
  end.

(** Contexts of the examples. *)
Definition generic_ctx (kind : string) (credentials : IDataObject)
  : IExecuteFunctions :=
  fixed_ctx [("genericAuthType", kind)] [] [] credentials.

Definition predefined_ctx (nodeCredentialType : string) : IExecuteFunctions :=
  fixed_ctx [("nodeCredentialType", nodeCredentialType)] [] [] [].

Definition optimizer_ctx (responseType : string) (maxLength : Z)
  : IExecuteFunctions :=
  fixed_ctx [("responseType", responseType)] [("optimizeResponse", true)]
    [("maxLength", number_of_Z maxLength)] [].

Definition disabled_ctx : IExecuteFunctions := fixed_ctx [] [] [] [].

Definition nested_response : value :=
  JObject [("a", JObject [("b", JArray [JString "x"])])].

Definition flat_response : value :=
  JObject [("a.b", JArray [JString "x"; JString "y"])].

(** The JSON text of an object with [headers] holding [A] = 1 and [qs]
    holding [b] = 2, its double quotes written as code units, and the value
    [JSON.parse] gives for it. *)
Definition double_quote : string := String "034"%char EmptyString.

Definition custom_auth_text : string :=
  String.concat double_quote
    [ "{"; "headers"; ":{"; "A"; ":"; "1"; "},"; "qs"; ":{"; "b"; ":"; "2";
      "}}" ].

Definition custom_auth_value : value :=
  JObject [ ("headers", JObject [("A", JString "1")]);
            ("qs", JObject [("b", JString "2")]) ].

Definition parse_example (text : string) : result value :=
  if String.eqb text custom_auth_text then Ok custom_auth_value
  else parse_literal text.

Definition upper_unused (c : ascii) : string := String c EmptyString.

Definition full_request : IHttpRequestOptions :=
  {| url := "https://example.com/items";
     method := "GET";
     headers := Some [("A", JString "0"); ("Accept", JString "text/html")];
     qs := Some [("page", JString "1")];
     body := JUndefined;
     auth := None |}.

Definition bare_request : IHttpRequestOptions :=
  {| url := "https://example.com/items";
     method := "GET";
     headers := None;
     qs := None;
     body := JUndefined;
     auth := None |}.

Definition html_ctx : IExecuteFunctions :=
  fixed_ctx [("responseType", "html"); ("cssSelector", "li")]
    [("optimizeResponse", true); ("onlyContent", true)] [] [].

Definition json_ctx (fieldsToInclude : string) : IExecuteFunctions :=
  fixed_ctx [("responseType", "json"); ("fieldsToInclude", fieldsToInclude)]
    [("optimizeResponse", true)] [] [].

Definition two_items : value :=
  JArray [ JObject [("a", JString "1")]; JObject [("a", JString "2")] ].

(** ToString. *)
Fixpoint ToString (v : value) : string :=
  match v with
  | JUndefined => "undefined"
  | JNull => "null"
  | JBool b => if b then "true" else "false"
  | JNumber n => Number_toString n
  | JString s => s
  | JArray l =>
      (fix join (l : list value) : string :=
         match l with
         | [] => ""
         | x :: l' =>
             let head := match x with
                         | JUndefined | JNull => ""
                         | _ => ToString x
                         end in
             match l' with
             | [] => head
             | _ :: _ => String.append head (String.append "," (join l'))
             end
         end) l
  | JObject _ => "[object Object]"
  | JNative callable name =>
      if callable
      then String.append "function "
             (String.append name "() { [native code] }")
      else "[object Object]"
  end.

(** Modelled from the spec: [jsonParse] of the n8n-workflow package is not
    under src/.  It parses its argument as JSON; on malformed input it fails
    with a parse error that has the caller's [errorMessage] as message, and
    without an [errorMessage] the parse failure propagates as it is. *)
Definition jsonParse (jsonString : string) (errorMessage : option string)
  : result value :=
  match JSON_parse jsonString with
  | Ok v => Ok v
  | Throw error =>
      match errorMessage with
      | Some m => Throw (ParseError m)
      | None => Throw error
      end
  end.

(** ** configureHttpRequestFunction *)

Definition configureHttpRequestFunction
  (ctx : IExecuteFunctions) (auth : string) (itemIndex : Z)
  : result (IHttpRequestOptions -> result call) :=
  if String.eqb auth "genericCredentialType" then
    genericCredentialType <-
      getNodeParameter_string ctx "genericAuthType" itemIndex None ;;
    if String.eqb genericCredentialType "httpBasicAuth"
       || String.eqb genericCredentialType "httpDigestAuth" then
      httpBasicAuth <- getCredentials ctx "httpBasicAuth" itemIndex ;;
      let sendImmediately :=
        if String.eqb genericCredentialType "httpDigestAuth"
        then Some false else None in
      Ok (fun requestOptions =>
        let requestOptions := set_auth requestOptions
          {| username := obj_get httpBasicAuth "user";
             password := obj_get httpBasicAuth "password";
             sendImmediately := sendImmediately |} in
        Ok (httpRequest requestOptions))
    else if String.eqb genericCredentialType "httpHeaderAuth" then
      httpHeaderAuth <- getCredentials ctx "httpHeaderAuth" itemIndex ;;
      Ok (fun requestOptions =>
        let name := ToString (obj_get httpHeaderAuth "name") in
        match headers requestOptions with
        | None =>
            Throw (TypeError (String.append
              "Cannot set properties of undefined (setting "
              (String.append (quoted name) ")")))
        | Some h =>
            let requestOptions := set_headers requestOptions
              (set_property h name (obj_get httpHeaderAuth "value")) in
            Ok (httpRequest requestOptions)
        end)
    else if String.eqb genericCredentialType "httpQueryAuth" then
      httpQueryAuth <- getCredentials ctx "httpQueryAuth" itemIndex ;;
      Ok (fun requestOptions =>
        let q := match qs requestOptions with
                 | Some q => q
                 | None => []
                 end in
        let requestOptions := set_qs requestOptions
          (set_property q (ToString (obj_get httpQueryAuth "name"))
             (obj_get httpQueryAuth "value")) in
        Ok (httpRequest requestOptions))
    else if String.eqb genericCredentialType "httpCustomAuth" then
      httpCustomAuth <- getCredentials ctx "httpCustomAuth" itemIndex ;;
      Ok (fun requestOptions =>
        let json := obj_get httpCustomAuth "json" in
        customAuth <-
          jsonParse (ToString (if truthy json then json else JString "{}"))
            (Some "Invalid Custom Auth JSON") ;;
        customHeaders <- prop_read customAuth "headers" ;;
        let requestOptions :=
          if truthy customHeaders
          then set_headers requestOptions
                 (spread (of_optional (headers requestOptions)) customHeaders)
          else requestOptions in
        customBody <- prop_read customAuth "body" ;;
        let requestOptions :=
          if truthy customBody
          then set_body requestOptions
                 (JObject (spread (body requestOptions) customBody))
          else requestOptions in
        customQs <- prop_read customAuth "qs" ;;
        let requestOptions :=
          if truthy customQs
          then set_qs requestOptions
                 (spread (of_optional (qs requestOptions)) customQs)
          else requestOptions in
        Ok (httpRequest requestOptions))
    else if String.eqb genericCredentialType "oAuth1Api" then
      Ok (fun requestOptions => Ok (requestOAuth1 "oAuth1Api" requestOptions))
    else if String.eqb genericCredentialType "oAuth2Api" then
      Ok (fun requestOptions =>
        Ok (requestOAuth2 "oAuth1Api" requestOptions
              {| tokenType := Some "Bearer";
                 includeCredentialsOnRefreshOnBody := None;
                 keepBearer := None;
                 tokenExpiredStatusCode := None;
                 property := None;
                 keyToIncludeInAccessTokenHeader := None |}))
    else
      Ok (fun requestOptions => Ok (httpRequest requestOptions))
  else if String.eqb auth "predefinedCredentialType" then
    nodeCredentialType <-
      getNodeParameter_string ctx "nodeCredentialType" itemIndex None ;;
    let additionalOAuth2Options :=
      getOAuth2AdditionalParameters nodeCredentialType in
    Ok (fun requestOptions =>
      Ok (requestWithAuthentication nodeCredentialType requestOptions
            (match additionalOAuth2Options with
             | Some o => Some {| oauth2 := o |}
             | None => None
             end)
            itemIndex))
  else
    Ok (fun requestOptions => Ok (httpRequest requestOptions)).

(** ** configureResponseOptimizer *)

Definition stringRequired (ctx : IExecuteFunctions) (itemIndex : Z)
  (response : value) : error :=
  NodeOperationError (getNode ctx)
    (String.append "The response type must be a string. Received: "
       (typeof response))
    itemIndex.

(** The closure built for [responseType === 'html']. *)
Definition optimizeHtml (ctx : IExecuteFunctions) (itemIndex : Z)
  (cssSelector : string) (onlyContent : bool) (elementsToOmit : list string)
  (response : value) : result string :=
  match response with
  | JString response =>
      htmlElements <- cheerio_html response cssSelector ;;
      returnData <-
        mapM (fun el =>
                let value := match el with
                             | Some h => if string_truthy h then h else ""
                             | None => ""
                             end in
                value <-
                  (if onlyContent then
                     let htmlToTextOptions :=
                       match elementsToOmit with
                       | [] => None
                       | _ :: _ =>
                           Some (map (fun sel =>
                                        {| selector := sel; format := "skip" |})
                                     elementsToOmit)
                       end in
                     convert value htmlToTextOptions
                   else Ok value) ;;
                Ok (collapse_spaces (remove_newlines (trim (trim value)))))
             htmlElements ;;
      Ok (JSON_stringify (JArray (map JString returnData)))
  | _ => Throw (stringRequired ctx itemIndex response)
  end.

(** The closure built for [responseType === 'text']. *)
Definition optimizeText (ctx : IExecuteFunctions) (itemIndex : Z)
  (maxLength : number) (response : value) : result string :=
  match response with
  | JString response =>
      if number_gt maxLength (number_of_Z 0)
         && number_gt (number_of_nat (String.length response)) maxLength
      then Ok (substring_to response maxLength)
      else Ok response
  | _ => Throw (stringRequired ctx itemIndex response)
  end.

(** Lines 283 to 298: the array the projection works on. *)
Definition unwrapDataField (responseData : value) (dataField : string)
  : result (list value) :=
  match responseData with
  | JArray items =>
      if string_truthy dataField
      then mapM (fun data => prop_read data dataField) items
      else Ok items
  | _ =>
      if string_truthy dataField then
        data <- prop_read responseData dataField ;;
        match data with
        | JArray items => Ok items
        | _ => Ok [data]
        end
      else Ok [responseData]
  end.

Definition parseFields (fields : string + list string) : list string :=
  match fields with
  | inl s => map trim (split ","%char s)
  | inr l => l
  end.

(** The closure built for [responseType === 'json']. *)
Definition optimizeJson (ctx : IExecuteFunctions) (itemIndex : Z)
  (response : value) : result string :=
  responseData <-
    match response with
    | JString s => jsonParse s None
    | _ => Ok response
    end ;;
  if negb (String.eqb (typeof responseData) "object")
     || negb (truthy responseData) then
    Throw (NodeOperationError (getNode ctx)
             "The response type must be an object or an array of objects"
             itemIndex)
  else
    dataField <- getNodeParameter_string ctx "dataField" itemIndex (Some "") ;;
    responseData <- unwrapDataField responseData dataField ;;
    fieldsToInclude <-
      getNodeParameter_string ctx "fieldsToInclude" itemIndex (Some "all") ;;
    fields <-
      (if negb (String.eqb fieldsToInclude "all") then
         fields <- getNodeParameter_strings ctx "fields" itemIndex
                     (Some (inr [])) ;;
         Ok (parseFields fields)
       else Ok []) ;;
    let returnData :=
      if negb (String.eqb fieldsToInclude "all") then [] else responseData in
    let returnData :=
      if String.eqb fieldsToInclude "selected" then
        returnData ++
        map (fun item =>
               fold_left
                 (fun newItem field =>
                    lodash_set newItem field (lodash_get item field))
                 fields (JObject []))
            responseData
      else returnData in
    let returnData :=
      if String.eqb fieldsToInclude "except" then
        returnData ++
        map (fun item =>
               fold_left (fun item field => lodash_unset item field)
                 fields item)
            responseData
      else returnData in
    Ok (JSON_stringify (JArray returnData)).

(** The closure built when no optimizer applies: the fallback serializer. *)
Definition serialize (response : value) : result string :=
  match response with
  | JString s => Ok s
  | _ =>
      if String.eqb (typeof response) "object"
      then Ok (JSON_stringify response)
      else Ok (ToString response)
  end.

Definition configureResponseOptimizer (ctx : IExecuteFunctions) (itemIndex : Z)
  : result (value -> result string) :=
  optimizeResponse <-
    getNodeParameter_boolean ctx "optimizeResponse" itemIndex (Some false) ;;
  if optimizeResponse then
    responseType <- getNodeParameter_string ctx "responseType" itemIndex None ;;
    if String.eqb responseType "html" then
      cssSelector <-
        getNodeParameter_string ctx "cssSelector" itemIndex (Some "") ;;
      onlyContent <-
        getNodeParameter_boolean ctx "onlyContent" itemIndex (Some false) ;;
      elementsToOmit <-
        (if onlyContent then
           elementsToOmitUi <-
             getNodeParameter_strings ctx "elementsToOmit" itemIndex
               (Some (inl "")) ;;
           match elementsToOmitUi with
           | inl s => Ok (map trim (split ","%char s))
           | inr _ => Ok []
           end
         else Ok []) ;;
      Ok (optimizeHtml ctx itemIndex cssSelector onlyContent elementsToOmit)
    else if String.eqb responseType "text" then
      maxLength <-
        getNodeParameter_number ctx "maxLength" itemIndex
          (Some (number_of_Z 0)) ;;
      Ok (optimizeText ctx itemIndex maxLength)
    else if String.eqb responseType "json" then
      Ok (optimizeJson ctx itemIndex)
    else Ok serialize
  else Ok serialize.


(** Building a closure and applying it at once, as the tool does for each
    call. *)
Definition dispatch (ctx : IExecuteFunctions) (auth : string) (itemIndex : Z)
  (requestOptions : IHttpRequestOptions) : result call :=
  f <- configureHttpRequestFunction ctx auth itemIndex ;; f requestOptions.

Definition optimize (ctx : IExecuteFunctions) (itemIndex : Z)
  (response : value) : result string :=
  f <- configureResponseOptimizer ctx itemIndex ;; f response.

(** ** prettifyToolName *)

(** [String.prototype.toUpperCase] on one code unit above 127, where the
    result may be longer than one code unit. *)
Variable toUpperCase_high : ascii -> string.

(** [c.toUpperCase()] for a string [c] of one code unit: below 128 only the
    letters [a] to [z] change. *)
Definition toUpperCase (c : ascii) : string :=
  let n := nat_of_ascii c in
  if ((97 <=? n) && (n <=? 122))%nat
  then String (ascii_of_nat (n - 32)) EmptyString
  else if (n <? 128)%nat then String c EmptyString
  else toUpperCase_high c.

(** [chars[0]] of the empty string is [undefined], and the method call on it
    throws. *)
Definition capitalize (str : string) : result string :=
  match str with
  | EmptyString =>
      Throw (TypeError
        "Cannot read properties of undefined (reading 'toUpperCase')")
  | String c rest => Ok (String.append (toUpperCase c) rest)
  end.

Definition prettifyToolName (toolName : string) : result string :=
  words <- mapM capitalize (split "_"%char toolName) ;;
  Ok (String.concat " " words).

(** ** Vocabulary of the further properties *)

(** The request a call carries. *)
Definition request_of (c : call) : IHttpRequestOptions :=
  match c with
  | httpRequest r => r
  | requestOAuth1 _ r => r
  | requestOAuth2 _ r _ => r
  | requestWithAuthentication _ r _ _ => r
  end.

(** Lines 232 to 236: what the html optimizer does to the text of one
    element. *)
Definition normalizeWhitespace (value : string) : string :=
  collapse_spaces (remove_newlines (trim (trim value))).

(** [html(el).html() || ''] for one matched element. *)
Definition innerHtml (el : option string) : string :=
  match el with
  | Some h => if string_truthy h then h else ""
  | None => ""
  end.

(** Every white space of [s] is a plain space, and no two of them are
    adjacent; [prev] tells that a space comes right before [s]. *)
Fixpoint single_spaced (prev : bool) (s : string) : bool :=
  match s with
  | EmptyString => true
  | String c s' =>
      if Ascii.eqb c " "%char then negb prev && single_spaced true s'
      else negb (is_space c) && single_spaced false s'
  end.

(** [s] neither starts nor ends with white space. *)
Definition no_outer_space (s : string) : Prop :=
  s = EmptyString \/
  ((exists c r, s = String c r /\ is_space c = false) /\
   (exists p c, s = String.append p (String c EmptyString) /\
                is_space c = false)).

(** [s] has the code unit [c]. *)
Fixpoint contains (c : ascii) (s : string) : bool :=
  match s with
  | EmptyString => false
  | String c' s' => Ascii.eqb c' c || contains c s'
  end.

Fixpoint count (c : ascii) (s : string) : nat :=
  match s with
  | EmptyString => O
  | String c' s' => ((if Ascii.eqb c' c then 1 else 0) + count c s')%nat
  end.

(** Every code unit of [s] is below 128. *)
Fixpoint ascii_only (s : string) : bool :=
  match s with
  | EmptyString => true
  | String c s' => (nat_of_ascii c <? 128)%nat && ascii_only s'
  end.

(** The name has an empty segment between underscores: it is empty, starts
    or ends with an underscore, or has two underscores in a row.
    [at_start] tells that no code unit of the current segment was seen. *)
Fixpoint empty_segment (at_start : bool) (s : string) : bool :=
  match s with
  | EmptyString => at_start
  | String c s' =>
      if Ascii.eqb c "_"%char then at_start || empty_segment true s'
      else empty_segment false s'
  end.

(** An object has each key once. *)
Definition distinct_keys (o : IDataObject) : Prop := NoDup (map fst o).

Definition isObject (v : value) : bool :=
  match v with
  | JArray _ | JObject _ => true
  | JNative callable _ => negb callable
  | _ => false
  end.

(** ** Properties *)

Lemma obj_get_set_same (o : IDataObject) (k : string) (v : value) :
  obj_get (define_property o k v) k = v.
Proof.
  unfold obj_get.
  induction o as [|[k' v'] o IH]; simpl.
  - now rewrite String.eqb_refl.
  - destruct (String.eqb k' k) eqn:E; simpl.
    + now rewrite String.eqb_refl.
    + rewrite E. exact IH.
Qed.

Lemma obj_lookup_set_other (o : IDataObject) (k k' : string) (v : value) :
  k' <> k -> obj_lookup (define_property o k v) k' = obj_lookup o k'.
Proof.
  intros Hne.
  induction o as [|[k0 v0] o IH]; simpl.
  - destruct (String.eqb_spec k k'); [congruence | reflexivity].
  - destruct (String.eqb_spec k0 k) as [->|Hk0]; simpl.
    + destruct (String.eqb_spec k k'); [congruence | reflexivity].
    + destruct (String.eqb_spec k0 k'); [reflexivity | exact IH].
Qed.


(** *** The auth dispatcher *)

(** Runs the dispatcher up to the closure it returns, given what the node
    parameter read by the branch returns. *)
Ltac enter_branch H :=
  unfold configureHttpRequestFunction; simpl; rewrite H; simpl.

(** Picks the closure just built as the witness of [exists f, ... = Ok f]. *)
Ltac built := eexists; split; [reflexivity|].

Lemma unrecognized_kind (kind : string) :
  ~ In kind recognizedKinds ->
  String.eqb kind "httpBasicAuth" = false /\
  String.eqb kind "httpDigestAuth" = false /\
  String.eqb kind "httpHeaderAuth" = false /\
  String.eqb kind "httpQueryAuth" = false /\
  String.eqb kind "httpCustomAuth" = false /\
  String.eqb kind "oAuth1Api" = false /\
  String.eqb kind "oAuth2Api" = false.
Proof.
  intros Hnot.
  repeat split; apply String.eqb_neq; intros ->; apply Hnot; simpl; tauto.
Qed.

(** C3: with [auth = none], and with a generic credential kind outside the
    seven recognized ones, the dispatcher does not fail: it returns a closure
    that ends with the plain transport call on the request as it was given,
    so that no field of it, [auth] included, is set. *)
Theorem plain_transport_fallback
  (ctx : IExecuteFunctions) (auth : string) (itemIndex : Z) (kind : string)
  (Hmode : auth = "none" \/
           (auth = "genericCredentialType" /\
            getNodeParameter_string ctx "genericAuthType" itemIndex None
              = Ok kind /\
            ~ In kind recognizedKinds)) :
  exists f,
    configureHttpRequestFunction ctx auth itemIndex = Ok f /\
    forall requestOptions, f requestOptions = Ok (httpRequest requestOptions).
Proof.
  destruct Hmode as [-> | (-> & Hkind & Hnot)].
  - built. intros; reflexivity.
  - destruct (unrecognized_kind kind Hnot) as (H1 & H2 & H3 & H4 & H5 & H6 & H7).
    enter_branch Hkind.
    rewrite H1, H2, H3, H4, H5, H6, H7; simpl.
    built. intros; reflexivity.
Qed.

Lemma set_property_plain (o : IDataObject) (k : string) (v : value) :
  k <> "__proto__" -> set_property o k v = define_property o k v.
Proof.
  intros Hk. unfold set_property.
  now apply String.eqb_neq in Hk; rewrite Hk.
Qed.

(** C4, amended: with [httpHeaderAuth], a credential [{name, value}] whose
    name is not [__proto__], and a request whose [headers] is an object, the
    closure ends with the transport call on a request in which
    [headers[name]] is [value], every other header is as it was, and [qs],
    [body] and [auth] (and [url], [method]) are untouched. *)
Theorem header_auth_frame
  (ctx : IExecuteFunctions) (itemIndex : Z) (credential : IDataObject)
  (name : string) (v : value)
  (requestOptions : IHttpRequestOptions) (h : IDataObject)
  (Hkind : getNodeParameter_string ctx "genericAuthType" itemIndex None
             = Ok "httpHeaderAuth")
  (Hcred : getCredentials ctx "httpHeaderAuth" itemIndex = Ok credential)
  (Hname : obj_get credential "name" = JString name)
  (Hplain : name <> "__proto__")
  (Hvalue : obj_get credential "value" = v)
  (Hheaders : headers requestOptions = Some h) :
  exists f sent h',
    configureHttpRequestFunction ctx "genericCredentialType" itemIndex = Ok f /\
    f requestOptions = Ok (httpRequest sent) /\
    headers sent = Some h' /\
    obj_get h' name = v /\
    (forall k, k <> name -> obj_lookup h' k = obj_lookup h k) /\
    qs sent = qs requestOptions /\
    body sent = body requestOptions /\
    auth sent = auth requestOptions /\
    url sent = url requestOptions /\
    method sent = method requestOptions.
Proof.
  enter_branch Hkind. rewrite Hcred; simpl.
  eexists.
  exists (set_headers requestOptions (define_property h name v)),
         (define_property h name v).
  split; [reflexivity|].
  cbv beta zeta.
  rewrite Hheaders, Hname, Hvalue. simpl ToString.
  rewrite set_property_plain by assumption.
  repeat split.
  - apply obj_get_set_same.
  - intros k Hk. now apply obj_lookup_set_other.
Qed.

Lemma table_lookup_In {A : Type} (t : list (string * A)) (k : string) (a : A) :
  table_lookup t k = Some a -> In (k, a) t.
Proof.
  induction t as [|[k' a'] t IH]; simpl; [discriminate|].
  destruct (String.eqb_spec k' k) as [->|Hne].
  - intros [= ->]. now left.
  - intros H. right. now apply IH.
Qed.

Lemma In_table_lookup {A : Type} (t : list (string * A)) (k : string) (a : A) :
  NoDup (map fst t) -> In (k, a) t -> table_lookup t k = Some a.
Proof.
  induction t as [|[k' a'] t IH]; simpl; intros Hd Hin; [destruct Hin|].
  inversion Hd as [|? ? Hnotin Hd']; subst.
  destruct Hin as [[= -> ->] | Hin].
  - now rewrite String.eqb_refl.
  - destruct (String.eqb_spec k' k) as [->|Hne]; [|now apply IH].
    exfalso. apply Hnotin. apply (in_map fst) in Hin. exact Hin.
Qed.

(** No name occurs twice in the object literal of lines 24 to 81. *)
Lemma oAuth2Options_distinct : NoDup (map fst oAuth2Options).
Proof.
  unfold oAuth2Options; simpl.
  repeat (constructor;
          [simpl; intros H;
           repeat (destruct H as [H | H]; [discriminate H|]); exact H|]).
  constructor.
Qed.

(** C7, amended: with [predefinedCredentialType] and a credential-type
    identifier that is not the name of a property inherited from
    [Object.prototype], the closure ends with the request-with-authentication
    call on that identifier, the request as given and the item index; its
    options argument is [{oauth2: entry}] exactly when [entry] is what the
    static table holds for the identifier, and is absent exactly when the
    table holds nothing for it. *)
Theorem predefined_credential_dispatch
  (ctx : IExecuteFunctions) (itemIndex : Z) (nodeCredentialType : string)
  (Hid : getNodeParameter_string ctx "nodeCredentialType" itemIndex None
           = Ok nodeCredentialType)
  (Hplain : Object_prototype nodeCredentialType = None) :
  exists f options,
    configureHttpRequestFunction ctx "predefinedCredentialType" itemIndex
      = Ok f /\
    (forall requestOptions,
       f requestOptions
       = Ok (requestWithAuthentication nodeCredentialType requestOptions
               options itemIndex)) /\
    (forall entry,
       options = Some {| oauth2 := TableEntry entry |} <->
       In (nodeCredentialType, entry) oAuth2Options) /\
    (options = None <->
     forall entry, ~ In (nodeCredentialType, entry) oAuth2Options).
Proof.
  unfold configureHttpRequestFunction.
  cbn -[In oAuth2Options getOAuth2AdditionalParameters].
  rewrite Hid. cbn -[In oAuth2Options getOAuth2AdditionalParameters].
  eexists. eexists. split; [reflexivity|].
  split; [intros; reflexivity|].
  unfold getOAuth2AdditionalParameters. rewrite Hplain.
  destruct (table_lookup oAuth2Options nodeCredentialType) as [o|] eqn:E.
  - split.
    + intros entry; split.
      * intros [= <-]. now apply table_lookup_In.
      * intros Hin.
        apply (In_table_lookup _ _ _ oAuth2Options_distinct) in Hin.
        congruence.
    + split; [discriminate|].
      intros Hnone. exfalso. apply (Hnone o). now apply table_lookup_In.
  - split.
    + intros entry; split; [discriminate|].
      intros Hin.
      apply (In_table_lookup _ _ _ oAuth2Options_distinct) in Hin.
      congruence.
    + split; [|reflexivity].
      intros _ entry Hin.
      apply (In_table_lookup _ _ _ oAuth2Options_distinct) in Hin.
      congruence.
Qed.

(** C9: with [oAuth2Api], the closure always ends with the OAuth2 signing
    call, and the credential-type identifier it passes is ['oAuth1Api'], which
    is not ['oAuth2Api'], with the fixed option [{tokenType: 'Bearer'}]. *)
Theorem oAuth2_uses_oAuth1_identifier
  (ctx : IExecuteFunctions) (itemIndex : Z)
  (Hkind : getNodeParameter_string ctx "genericAuthType" itemIndex None
             = Ok "oAuth2Api") :
  exists f,
    configureHttpRequestFunction ctx "genericCredentialType" itemIndex = Ok f /\
    (forall requestOptions,
       f requestOptions
       = Ok (requestOAuth2 "oAuth1Api" requestOptions
               {| tokenType := Some "Bearer";
                  includeCredentialsOnRefreshOnBody := None;
                  keepBearer := None;
                  tokenExpiredStatusCode := None;
                  property := None;
                  keyToIncludeInAccessTokenHeader := None |})) /\
    "oAuth1Api" <> "oAuth2Api".
Proof.
  enter_branch Hkind.
  eexists; repeat split; discriminate.
Qed.


(** C2, amended: with [httpCustomAuth] and a credential whose JSON string is
    not empty and is malformed, the closure raises a parse error whose
    message is "Invalid Custom Auth JSON"; the error is the same for every
    item index and carries none. *)
Theorem custom_auth_malformed_json
  (ctx : IExecuteFunctions) (itemIndex : Z) (credential : IDataObject)
  (json : string) (failure : error)
  (Hkind : getNodeParameter_string ctx "genericAuthType" itemIndex None
             = Ok "httpCustomAuth")
  (Hcred : getCredentials ctx "httpCustomAuth" itemIndex = Ok credential)
  (Hjson : obj_get credential "json" = JString json)
  (Hnonempty : json <> "")
  (Hmalformed : JSON_parse json = Throw failure) :
  exists f e,
    configureHttpRequestFunction ctx "genericCredentialType" itemIndex = Ok f /\
    (forall requestOptions, f requestOptions = Throw e) /\
    e = ParseError "Invalid Custom Auth JSON" /\
    error_message e = "Invalid Custom Auth JSON" /\
    error_itemIndex e = None.
Proof.
  enter_branch Hkind. rewrite Hcred; simpl.
  eexists. exists (ParseError "Invalid Custom Auth JSON").
  split; [reflexivity|].
  split; [|repeat split].
  intros requestOptions. cbv beta zeta.
  rewrite Hjson.
  destruct json as [|c json']; [congruence|].
  simpl truthy. cbv iota. simpl ToString.
  unfold jsonParse. rewrite Hmalformed. reflexivity.
Qed.

(** C10: with [httpCustomAuth] and a credential whose [json] field is
    absent, [null] or the empty string, the text ['{}'] is parsed in its
    place; the closure raises nothing and ends with the transport call on the
    request as it was given, so [headers], [qs] and [body] are unchanged. *)
Theorem custom_auth_empty_json
  (ctx : IExecuteFunctions) (itemIndex : Z) (credential : IDataObject)
  (Hkind : getNodeParameter_string ctx "genericAuthType" itemIndex None
             = Ok "httpCustomAuth")
  (Hcred : getCredentials ctx "httpCustomAuth" itemIndex = Ok credential)
  (Hjson : obj_lookup credential "json" = None \/
           obj_lookup credential "json" = Some JNull \/
           obj_lookup credential "json" = Some (JString ""))
  (Hparse : JSON_parse "{}" = Ok (JObject [])) :
  exists f,
    configureHttpRequestFunction ctx "genericCredentialType" itemIndex = Ok f /\
    forall requestOptions, f requestOptions = Ok (httpRequest requestOptions).
Proof.
  enter_branch Hkind. rewrite Hcred; simpl.
  built.
  intros requestOptions. cbv beta zeta.
  assert (Hfalsy : truthy (obj_get credential "json") = false).
  { unfold obj_get. destruct Hjson as [-> | [-> | ->]]; reflexivity. }
  rewrite Hfalsy. simpl ToString.
  unfold jsonParse. rewrite Hparse. reflexivity.
Qed.

(** *** The response optimizers *)

Lemma mapM_prop_read (dataField : string) (items : list value) :
  Forall (fun data => nullish data = false) items ->
  mapM (fun data => prop_read data dataField) items
  = Ok (map (fun data => get_property data dataField) items).
Proof.
  induction 1 as [|data items Hdata _ IH]; simpl.
  - reflexivity.
  - rewrite IH. destruct data; simpl in *; try discriminate; reflexivity.
Qed.

(** C1, amended: a [dataField] that is set is used as one property key, a
    dot in it being part of the key and nothing nested being reached.  For a
    response that is an object, the value of that property becomes the
    working array when it is an array and is wrapped in a one-element array
    otherwise; for a response that is an array with no [null] or [undefined]
    element, each element is mapped one-to-one to its property of that
    name.  The property is the own one or, failing that, the one inherited
    through the prototype, as [v[k]] reads it. *)
Theorem dataField_is_one_key
  (responseData : value) (dataField : string)
  (Hset : dataField <> "")
  (Hshape : match responseData with
            | JObject _ => True
            | JArray items => Forall (fun data => nullish data = false) items
            | _ => False
            end) :
  unwrapDataField responseData dataField
  = Ok (match responseData with
        | JArray items => map (fun data => get_property data dataField) items
        | _ =>
            match get_property responseData dataField with
            | JArray items => items
            | data => [data]
            end
        end)
  /\ (forall items, responseData = JArray items ->
       exists working,
         unwrapDataField responseData dataField = Ok working /\
         List.length working = List.length items).
Proof.
  assert (Htruthy : string_truthy dataField = true)
    by (destruct dataField; [congruence | reflexivity]).
  destruct responseData; try contradiction; unfold unwrapDataField;
    rewrite Htruthy.
  - split.
    + now apply mapM_prop_read.
    + intros items [= <-]. eexists; split.
      * now apply mapM_prop_read.
      * now rewrite length_map.
  - split.
    + simpl. destruct (obj_get properties dataField); reflexivity.
    + intros items [=].
Qed.

(** The optimizer with [fieldsToInclude = all] serializes the working array
    as it is. *)
Lemma optimizeJson_all
  (ctx : IExecuteFunctions) (itemIndex : Z) (responseData : value)
  (dataField : string)
  (Hobject : typeof responseData = "object")
  (Htruthy : truthy responseData = true)
  (Hfield : getNodeParameter_string ctx "dataField" itemIndex (Some "")
              = Ok dataField)
  (Hall : getNodeParameter_string ctx "fieldsToInclude" itemIndex (Some "all")
            = Ok "all") :
  optimizeJson ctx itemIndex responseData
  = (working <- unwrapDataField responseData dataField ;;
     Ok (JSON_stringify (JArray working))).
Proof.
  unfold optimizeJson.
  assert (Hns : match responseData with
                | JString s => jsonParse s None
                | _ => Ok responseData
                end = Ok responseData)
    by (destruct responseData; try reflexivity; discriminate).
  rewrite Hns; simpl. rewrite Hobject, Htruthy; simpl.
  rewrite Hfield; simpl.
  destruct (unwrapDataField responseData dataField); simpl; [|reflexivity].
  rewrite Hall; simpl. reflexivity.
Qed.


(** C5, amended: on a response that is not a string, the html optimizer and
    the text optimizer both raise a [NodeOperationError] for the node, whose
    message is "The response type must be a string. Received: " followed by
    the [typeof] of the response, and which carries the item index. *)
Theorem string_required
  (ctx : IExecuteFunctions) (itemIndex : Z) (responseType : string)
  (f : value -> result string) (response : value)
  (Hon : getNodeParameter_boolean ctx "optimizeResponse" itemIndex (Some false)
           = Ok true)
  (Htype : getNodeParameter_string ctx "responseType" itemIndex None
             = Ok responseType)
  (Hkind : responseType = "html" \/ responseType = "text")
  (Hbuilt : configureResponseOptimizer ctx itemIndex = Ok f)
  (Hnot : typeof response <> "string") :
  f response
  = Throw (NodeOperationError (getNode ctx)
             (String.append "The response type must be a string. Received: "
                (typeof response))
             itemIndex).
Proof.
  unfold configureResponseOptimizer in Hbuilt.
  rewrite Hon in Hbuilt; simpl in Hbuilt.
  rewrite Htype in Hbuilt; simpl in Hbuilt.
  destruct Hkind as [-> | ->]; simpl in Hbuilt.
  - destruct (getNodeParameter_string ctx "cssSelector" itemIndex (Some ""))
      as [cssSelector|]; simpl in Hbuilt; [|discriminate].
    destruct (getNodeParameter_boolean ctx "onlyContent" itemIndex (Some false))
      as [onlyContent|]; simpl in Hbuilt; [|discriminate].
    destruct onlyContent; simpl in Hbuilt.
    + destruct (getNodeParameter_strings ctx "elementsToOmit" itemIndex
                  (Some (inl "")))
        as [[s|l]|]; simpl in Hbuilt; try discriminate;
        injection Hbuilt as <-;
        destruct response; try reflexivity; simpl in Hnot; congruence.
    + injection Hbuilt as <-.
      destruct response; try reflexivity; simpl in Hnot; congruence.
  - destruct (getNodeParameter_number ctx "maxLength" itemIndex
                (Some (number_of_Z 0)))
      as [maxLength|]; simpl in Hbuilt; [|discriminate].
    injection Hbuilt as <-.
    destruct response; try reflexivity; simpl in Hnot; congruence.
Qed.

Lemma number_gt_integers (a b : Z) :
  number_gt (Finite a 0) (Finite b 0) = (b <? a).
Proof.
  unfold number_gt, align. simpl. now rewrite !Z.mul_1_r.
Qed.

Lemma clamp_index_inside (m len : Z) :
  0 < m < len -> clamp_index (Finite m 0) len = m.
Proof.
  intros H. unfold clamp_index. simpl. rewrite Z.mul_1_r. lia.
Qed.

(** C6: the text optimizer configured with [maxLength = m] returns, for
    every string [s], the first [m] characters of [s] when [m > 0] and [s] is
    longer than [m], and [s] itself otherwise, nothing being appended; with
    [m = 0] every string comes back unchanged. *)
Theorem text_truncation
  (ctx : IExecuteFunctions) (itemIndex : Z) (m : Z)
  (Hon : getNodeParameter_boolean ctx "optimizeResponse" itemIndex (Some false)
           = Ok true)
  (Htype : getNodeParameter_string ctx "responseType" itemIndex None
             = Ok "text")
  (Hmax : getNodeParameter_number ctx "maxLength" itemIndex
            (Some (number_of_Z 0))
          = Ok (number_of_Z m)) :
  exists f,
    configureResponseOptimizer ctx itemIndex = Ok f /\
    (forall s,
       f (JString s)
       = Ok (if (0 <? m) && (m <? Z.of_nat (String.length s))
             then String.substring 0 (Z.to_nat m) s
             else s)) /\
    (m = 0 -> forall s, f (JString s) = Ok s).
Proof.
  unfold configureResponseOptimizer.
  rewrite Hon; simpl. rewrite Htype; simpl. rewrite Hmax; simpl.
  built.
  assert (Hgen : forall s,
    optimizeText ctx itemIndex (number_of_Z m) (JString s)
    = Ok (if (0 <? m) && (m <? Z.of_nat (String.length s))
          then String.substring 0 (Z.to_nat m) s
          else s)).
  { intros s. unfold optimizeText, number_of_Z, number_of_nat.
    rewrite !number_gt_integers.
    destruct ((0 <? m) && (m <? Z.of_nat (String.length s))) eqn:E;
      [|reflexivity].
    apply andb_true_iff in E. destruct E as [E1 E2].
    apply Z.ltb_lt in E1, E2.
    unfold substring_to. rewrite clamp_index_inside by lia. reflexivity. }
  split; [exact Hgen|].
  intros -> s. rewrite Hgen. reflexivity.
Qed.

(** C8: the function built when optimization is disabled returns a string
    response as it is, so applying it to its own result on a string gives
    the same string as applying it once. *)
Theorem fallback_idempotent_on_strings
  (ctx : IExecuteFunctions) (itemIndex : Z)
  (Hoff : getNodeParameter_boolean ctx "optimizeResponse" itemIndex (Some false)
            = Ok false) :
  exists f,
    configureResponseOptimizer ctx itemIndex = Ok f /\
    forall s,
      f (JString s) = Ok s /\
      (once <- f (JString s) ;; f (JString once)) = f (JString s).
Proof.
  unfold configureResponseOptimizer.
  rewrite Hoff; simpl.
  built.
  intros s; split; reflexivity.
Qed.

(** ** Further properties *)

(** *** Strings *)

Lemma append_empty_r (s : string) : String.append s EmptyString = s.
Proof. induction s; simpl; congruence. Qed.

Lemma append_assoc (a b c : string) :
  String.append (String.append a b) c = String.append a (String.append b c).
Proof. induction a; simpl; congruence. Qed.

Lemma length_append (a b : string) :
  String.length (String.append a b) = (String.length a + String.length b)%nat.
Proof. induction a; simpl; congruence. Qed.

Lemma string_rev_append (a b : string) :
  string_rev (String.append a b)
  = String.append (string_rev b) (string_rev a).
Proof.
  induction a as [|c a IH]; simpl.
  - now rewrite append_empty_r.
  - now rewrite IH, append_assoc.
Qed.

Lemma string_rev_involutive (s : string) : string_rev (string_rev s) = s.
Proof.
  induction s as [|c s IH]; simpl; [reflexivity|].
  now rewrite string_rev_append, IH.
Qed.

Lemma contains_append (c : ascii) (a b : string) :
  contains c (String.append a b) = contains c a || contains c b.
Proof.
  induction a as [|x a IH]; simpl; [reflexivity|].
  now rewrite IH, orb_assoc.
Qed.

Lemma contains_rev (c : ascii) (s : string) :
  contains c (string_rev s) = contains c s.
Proof.
  induction s as [|x s IH]; simpl; [reflexivity|].
  rewrite contains_append, IH. simpl.
  rewrite orb_false_r. apply orb_comm.
Qed.

(** *** split *)

Lemma split_from_nonempty (sep : ascii) (s acc : string) :
  split_from sep acc s <> [].
Proof.
  revert acc; induction s as [|c s IH]; intros acc; simpl; [discriminate|].
  destruct (Ascii.eqb c sep); [discriminate | apply IH].
Qed.

Lemma concat_cons (sep a : string) (l : list string) :
  l <> [] ->
  String.concat sep (a :: l)
  = String.append a (String.append sep (String.concat sep l)).
Proof. destruct l; [congruence | reflexivity]. Qed.

Lemma split_from_spec (sep : ascii) (s acc : string) :
  String.concat (String sep EmptyString) (split_from sep acc s)
  = String.append (string_rev acc) s.
Proof.
  revert acc; induction s as [|c s IH]; intros acc.
  - simpl. now rewrite append_empty_r.
  - cbn [split_from].
    destruct (Ascii.eqb_spec c sep) as [->|Hne].
    + rewrite concat_cons by apply split_from_nonempty.
      rewrite IH. reflexivity.
    + rewrite IH. simpl. now rewrite append_assoc.
Qed.

(** Joining the pieces with the separator gives the string back. *)
Lemma concat_split (sep : ascii) (s : string) :
  String.concat (String sep EmptyString) (split sep s) = s.
Proof. unfold split. now rewrite split_from_spec. Qed.

Lemma split_from_pieces (sep : ascii) (s acc : string) :
  contains sep acc = false ->
  Forall (fun piece => contains sep piece = false) (split_from sep acc s).
Proof.
  revert acc; induction s as [|c s IH]; intros acc Hacc; simpl.
  - constructor; [now rewrite contains_rev | constructor].
  - destruct (Ascii.eqb_spec c sep) as [->|Hne].
    + constructor; [now rewrite contains_rev | now apply IH].
    + apply IH. simpl. rewrite Hacc.
      now apply Ascii.eqb_neq in Hne; rewrite Hne.
Qed.

Lemma split_from_length (sep : ascii) (s acc : string) :
  List.length (split_from sep acc s) = S (count sep s).
Proof.
  revert acc; induction s as [|c s IH]; intros acc; simpl; [reflexivity|].
  destruct (Ascii.eqb c sep); simpl; now rewrite IH.
Qed.

Lemma split_from_no_sep (sep : ascii) (s acc : string) :
  contains sep s = false ->
  split_from sep acc s = [String.append (string_rev acc) s].
Proof.
  revert acc; induction s as [|c s IH]; intros acc Hs; simpl in *.
  - now rewrite append_empty_r.
  - apply orb_false_iff in Hs. destruct Hs as [Hc Hs].
    rewrite Hc, IH by assumption. simpl. now rewrite append_assoc.
Qed.

(** *** prettifyToolName *)

Lemma string_rev_empty (s : string) :
  string_rev s = EmptyString <-> s = EmptyString.
Proof.
  split; [|intros ->; reflexivity].
  destruct s as [|c s]; [reflexivity|]; simpl.
  destruct (string_rev s); discriminate.
Qed.

Lemma split_from_empty_segment (s acc : string) :
  In EmptyString (split_from "_"%char acc s)
  <-> empty_segment (negb (string_truthy acc)) s = true.
Proof.
  revert acc; induction s as [|c s IH]; intros acc; simpl.
  - rewrite string_rev_empty.
    destruct acc; simpl; split.
    + reflexivity.
    + intros _. now left.
    + intros [H | []]. discriminate.
    + discriminate.
  - destruct (Ascii.eqb c "_"%char); simpl.
    + rewrite (IH EmptyString), orb_true_iff, string_rev_empty. simpl.
      destruct acc; simpl; split.
      * intros _. now left.
      * intros _. now left.
      * intros [H | H]; [discriminate | now right].
      * intros [H | H]; [discriminate | now right].
    + rewrite IH. reflexivity.
Qed.

Lemma mapM_capitalize_empty (segments : list string) :
  In EmptyString segments ->
  mapM capitalize segments
  = Throw (TypeError
      "Cannot read properties of undefined (reading 'toUpperCase')").
Proof.
  induction segments as [|seg segments IH]; intros Hin; [destruct Hin|].
  destruct seg as [|c rest]; [reflexivity|].
  destruct Hin as [Heq|Hin]; [discriminate|].
  cbn [mapM capitalize bind]. now rewrite IH.
Qed.

Lemma mapM_capitalize_full (segments : list string) :
  ~ In EmptyString segments ->
  exists words, mapM capitalize segments = Ok words.
Proof.
  induction segments as [|seg segments IH]; intros Hnot.
  - now exists [].
  - destruct seg as [|c rest]; [exfalso; apply Hnot; now left|].
    destruct IH as [words Hwords]; [intros H; apply Hnot; now right|].
    eexists. cbn [mapM capitalize bind]. rewrite Hwords. reflexivity.
Qed.

(** X1: [prettifyToolName] throws a [TypeError] exactly on the names with an
    empty segment (the empty name, a leading or trailing underscore, two
    underscores in a row), and returns on every other name. *)
Theorem prettifyToolName_throws_on_empty_segment (toolName : string) :
  if empty_segment true toolName
  then prettifyToolName toolName
       = Throw (TypeError
           "Cannot read properties of undefined (reading 'toUpperCase')")
  else exists pretty, prettifyToolName toolName = Ok pretty.
Proof.
  unfold prettifyToolName, split.
  pose proof (split_from_empty_segment toolName EmptyString) as Hiff.
  simpl in Hiff.
  destruct (empty_segment true toolName).
  - rewrite mapM_capitalize_empty; [reflexivity | now apply Hiff].
  - destruct (mapM_capitalize_full (split_from "_"%char EmptyString toolName))
      as [words Hwords].
    + intros Hin. apply Hiff in Hin. discriminate.
    + rewrite Hwords. eexists; reflexivity.
Qed.

Lemma toUpperCase_ascii (c : ascii) :
  (nat_of_ascii c <? 128)%nat = true ->
  exists u,
    toUpperCase c = String u EmptyString /\
    (nat_of_ascii u <? 128)%nat = true /\
    toUpperCase u = String u EmptyString /\
    (Ascii.eqb c "_"%char = false -> Ascii.eqb u "_"%char = false).
Proof.
  destruct c as [b0 b1 b2 b3 b4 b5 b6 b7].
  destruct b7; [destruct b0, b1, b2, b3, b4, b5, b6; discriminate|].
  intros _.
  destruct b0, b1, b2, b3, b4, b5, b6;
    (eexists; split; [reflexivity|]; repeat split; auto).
Qed.

Lemma ascii_only_append (a b : string) :
  ascii_only (String.append a b) = ascii_only a && ascii_only b.
Proof.
  induction a as [|c a IH]; simpl; [reflexivity|].
  now rewrite IH, andb_assoc.
Qed.

Lemma ascii_only_rev (s : string) : ascii_only (string_rev s) = ascii_only s.
Proof.
  induction s as [|c s IH]; simpl; [reflexivity|].
  rewrite ascii_only_append, IH. simpl.
  rewrite andb_true_r. apply andb_comm.
Qed.

Lemma split_from_ascii (sep : ascii) (s acc : string) :
  ascii_only acc = true -> ascii_only s = true ->
  Forall (fun piece => ascii_only piece = true) (split_from sep acc s).
Proof.
  revert acc; induction s as [|c s IH]; intros acc Hacc Hs; simpl in *.
  - constructor; [now rewrite ascii_only_rev | constructor].
  - apply andb_true_iff in Hs. destruct Hs as [Hc Hs].
    destruct (Ascii.eqb c sep).
    + constructor; [now rewrite ascii_only_rev | now apply IH].
    + apply IH; [simpl; now rewrite Hc, Hacc | assumption].
Qed.

Lemma capitalize_append (w t : string) :
  capitalize w = Ok w ->
  capitalize (String.append w t) = Ok (String.append w t).
Proof.
  destruct w as [|c w]; simpl; [discriminate|].
  intros [= H]. now rewrite <- append_assoc, H.
Qed.

(** What capitalizing does to a list of non-empty segments of code units
    below 128 that have no underscore. *)
Lemma mapM_capitalize_ascii (segments : list string) :
  Forall (fun seg => seg <> EmptyString) segments ->
  Forall (fun seg => ascii_only seg = true) segments ->
  Forall (fun seg => contains "_"%char seg = false) segments ->
  exists words,
    mapM capitalize segments = Ok words /\
    Forall2 (fun seg w =>
               String.length w = String.length seg /\
               contains "_"%char w = false /\
               capitalize w = Ok w)
            segments words.
Proof.
  induction segments as [|seg segments IH]; intros Hne Hascii Hno.
  - exists []. split; [reflexivity | constructor].
  - inversion Hne as [|? ? Hseg Hne']; subst.
    inversion Hascii as [|? ? Ha Hascii']; subst.
    inversion Hno as [|? ? Hu Hno']; subst.
    destruct (IH Hne' Hascii' Hno') as (words & Hwords & Hall).
    destruct seg as [|c rest]; [congruence|].
    simpl in Ha, Hu.
    apply andb_true_iff in Ha. destruct Ha as [Hc Hrest].
    apply orb_false_iff in Hu. destruct Hu as [Hcu Hrestu].
    destruct (toUpperCase_ascii c Hc) as (u & Hup & Hu128 & Hfix & Hunder).
    exists (String u rest :: words). split.
    + cbn [mapM capitalize bind]. rewrite Hup, Hwords. reflexivity.
    + constructor; [|assumption].
      repeat split.
      * simpl. now rewrite (Hunder Hcu), Hrestu.
      * simpl. now rewrite Hfix.
Qed.

Lemma length_concat_pairwise (sep1 sep2 : string) (xs ys : list string)
  (R : string -> string -> Prop) :
  String.length sep1 = String.length sep2 ->
  (forall x y, R x y -> String.length y = String.length x) ->
  Forall2 R xs ys ->
  String.length (String.concat sep2 ys) = String.length (String.concat sep1 xs).
Proof.
  intros Hsep HR Hall.
  induction Hall as [|x y xs ys Hxy Hall IH]; [reflexivity|].
  destruct Hall as [|x' y' xs ys Hxy' Hall].
  - simpl. now apply HR.
  - rewrite (concat_cons sep2 y), (concat_cons sep1 x) by discriminate.
    rewrite !length_append, IH, Hsep, (HR _ _ Hxy). reflexivity.
Qed.

Lemma contains_concat (c : ascii) (sep : string) (ws : list string) :
  contains c sep = false ->
  Forall (fun w => contains c w = false) ws ->
  contains c (String.concat sep ws) = false.
Proof.
  intros Hsep Hall.
  induction Hall as [|w ws Hw Hall IH]; [reflexivity|].
  destruct ws as [|w' ws]; [exact Hw|].
  rewrite concat_cons by discriminate.
  now rewrite !contains_append, Hw, Hsep, IH.
Qed.

Lemma Forall2_right {A B : Type} (R : A -> B -> Prop) (P : B -> Prop)
  (xs : list A) (ys : list B) :
  (forall x y, R x y -> P y) -> Forall2 R xs ys -> Forall P ys.
Proof. intros H Hall. induction Hall; constructor; eauto. Qed.

Lemma ascii_segments (toolName : string) :
  ascii_only toolName = true ->
  empty_segment true toolName = false ->
  exists words,
    mapM capitalize (split "_"%char toolName) = Ok words /\
    Forall2 (fun seg w =>
               String.length w = String.length seg /\
               contains "_"%char w = false /\
               capitalize w = Ok w)
            (split "_"%char toolName) words.
Proof.
  intros Hascii Hsegs. unfold split.
  apply mapM_capitalize_ascii.
  - apply Forall_forall. intros seg Hin ->.
    apply (split_from_empty_segment toolName EmptyString) in Hin.
    simpl in Hin. congruence.
  - now apply split_from_ascii.
  - now apply split_from_pieces.
Qed.

(** X2: on a name of code units below 128 without an empty segment,
    [prettifyToolName] returns a string as long as the name, in which no
    underscore is left. *)
Theorem prettifyToolName_replaces_underscores (toolName : string)
  (Hascii : ascii_only toolName = true)
  (Hsegments : empty_segment true toolName = false) :
  exists pretty,
    prettifyToolName toolName = Ok pretty /\
    String.length pretty = String.length toolName /\
    contains "_"%char pretty = false.
Proof.
  destruct (ascii_segments toolName Hascii Hsegments) as (words & Hwords & Hall).
  exists (String.concat " " words). unfold prettifyToolName.
  rewrite Hwords. split; [reflexivity|]. split.
  - rewrite <- (concat_split "_"%char toolName) at 1.
    apply (length_concat_pairwise "_" " " _ _ _ eq_refl
             (fun x y H => proj1 H) Hall).
  - apply contains_concat; [reflexivity|].
    apply (Forall2_right _ _ _ _ (fun x y H => proj1 (proj2 H)) Hall).
Qed.

(** X3: on such a name [prettifyToolName] is idempotent: prettifying its
    result gives the result back. *)
Theorem prettifyToolName_idempotent (toolName : string)
  (Hascii : ascii_only toolName = true)
  (Hsegments : empty_segment true toolName = false) :
  exists pretty,
    prettifyToolName toolName = Ok pretty /\
    prettifyToolName pretty = Ok pretty.
Proof.
  destruct (ascii_segments toolName Hascii Hsegments) as (words & Hwords & Hall).
  exists (String.concat " " words). unfold prettifyToolName at 1.
  rewrite Hwords. split; [reflexivity|].
  assert (Hno : contains "_"%char (String.concat " " words) = false).
  { apply contains_concat; [reflexivity|].
    apply (Forall2_right _ _ _ _ (fun x y H => proj1 (proj2 H)) Hall). }
  unfold prettifyToolName, split.
  rewrite (split_from_no_sep _ _ EmptyString Hno). simpl String.append.
  assert (Hcap : capitalize (String.concat " " words)
                 = Ok (String.concat " " words)).
  { pose proof (split_from_nonempty "_"%char toolName EmptyString) as Hne.
    fold (split "_"%char toolName) in Hne.
    destruct Hall as [|seg w segs ws (_ & _ & Hw) Hall].
    - congruence.
    - destruct ws as [|w' ws]; [exact Hw|].
      rewrite concat_cons by discriminate. now apply capitalize_append. }
  cbn [mapM bind]. rewrite Hcap. reflexivity.
Qed.

(** *** The auth strategies *)

Lemma obj_lookup_set_same (o : IDataObject) (k : string) (v : value) :
  obj_lookup (define_property o k v) k = Some v.
Proof.
  induction o as [|[k' v'] o IH]; simpl.
  - now rewrite String.eqb_refl.
  - destruct (String.eqb k' k) eqn:E; simpl.
    + now rewrite String.eqb_refl.
    + rewrite E. exact IH.
Qed.

Lemma obj_lookup_absent (o : IDataObject) (k : string) :
  ~ In k (map fst o) -> obj_lookup o k = None.
Proof.
  induction o as [|[k' v'] o IH]; simpl; intros Hnot; [reflexivity|].
  destruct (String.eqb_spec k' k) as [->|Hne];
    [exfalso; apply Hnot; now left|].
  apply IH. intros H. apply Hnot. now right.
Qed.

(** In [{...target, ...source}] a key of [source] has the value [source]
    gives it, and every other key the value it has in [target]. *)
Lemma obj_lookup_assign (source target : IDataObject) (k : string) :
  distinct_keys source ->
  obj_lookup (assign target source) k
  = match obj_lookup source k with
    | Some v => Some v
    | None => obj_lookup target k
    end.
Proof.
  unfold assign, distinct_keys.
  revert target; induction source as [|[k0 v0] source IH]; intros target Hd.
  - reflexivity.
  - simpl in *. inversion Hd as [|? ? Hnotin Hd']; subst.
    rewrite IH by assumption.
    destruct (String.eqb_spec k0 k) as [->|Hne].
    + rewrite (obj_lookup_absent source k Hnotin).
      apply obj_lookup_set_same.
    + destruct (obj_lookup source k); [reflexivity|].
      apply obj_lookup_set_other. congruence.
Qed.

Lemma obj_lookup_spread (target source : IDataObject) (k : string) :
  distinct_keys target -> distinct_keys source ->
  obj_lookup (spread (JObject target) (JObject source)) k
  = match obj_lookup source k with
    | Some v => Some v
    | None => obj_lookup target k
    end.
Proof.
  intros Ht Hs. unfold spread. simpl own_enumerable.
  rewrite (obj_lookup_assign source) by assumption.
  rewrite (obj_lookup_assign target) by assumption.
  destruct (obj_lookup source k); [reflexivity|].
  destruct (obj_lookup target k); reflexivity.
Qed.



(** X6: with [httpHeaderAuth] a request without [headers] is not sent: the
    closure throws the [TypeError] of an assignment into [undefined]. *)
Theorem header_auth_needs_headers
  (ctx : IExecuteFunctions) (itemIndex : Z) (credential : IDataObject)
  (name : string) (requestOptions : IHttpRequestOptions)
  (Hkind : getNodeParameter_string ctx "genericAuthType" itemIndex None
             = Ok "httpHeaderAuth")
  (Hcred : getCredentials ctx "httpHeaderAuth" itemIndex = Ok credential)
  (Hname : obj_get credential "name" = JString name)
  (Hheaders : headers requestOptions = None) :
  dispatch ctx "genericCredentialType" itemIndex requestOptions
  = Throw (TypeError (String.append
      "Cannot set properties of undefined (setting "
      (String.append (quoted name) ")"))).
Proof.
  unfold dispatch. enter_branch Hkind. rewrite Hcred; simpl.
  rewrite Hheaders, Hname. reflexivity.
Qed.

Lemma obj_lookup_spread_optional
  (target : option IDataObject) (source : IDataObject) (k : string) :
  (forall t, target = Some t -> distinct_keys t) -> distinct_keys source ->
  obj_lookup (spread (of_optional target) (JObject source)) k
  = match obj_lookup source k with
    | Some v => Some v
    | None =>
        match target with
        | Some t => obj_lookup t k
        | None => None
        end
    end.
Proof.
  intros Ht Hs. destruct target as [t|]; simpl of_optional.
  - apply obj_lookup_spread; [now apply Ht | assumption].
  - unfold spread. simpl own_enumerable.
    rewrite (obj_lookup_assign source) by assumption.
    destruct (obj_lookup source k); reflexivity.
Qed.

(** X7: with [httpCustomAuth] and a credential whose JSON is an object with
    an object under [headers] and an object under [qs] and nothing under
    [body], the request sent has, for every key, the credential's header
    when it has one and the request's own header otherwise (none when the
    request had no [headers]), likewise for [qs], and the body and the other
    fields as they were. *)
Theorem custom_auth_merge
  (ctx : IExecuteFunctions) (itemIndex : Z) (credential : IDataObject)
  (json : string) (custom customHeaders customQs : IDataObject)
  (requestOptions : IHttpRequestOptions)
  (Hkind : getNodeParameter_string ctx "genericAuthType" itemIndex None
             = Ok "httpCustomAuth")
  (Hcred : getCredentials ctx "httpCustomAuth" itemIndex = Ok credential)
  (Hjson : obj_get credential "json" = JString json)
  (Hnonempty : json <> "")
  (Hparse : JSON_parse json = Ok (JObject custom))
  (Hch : obj_get custom "headers" = JObject customHeaders)
  (Hcq : obj_get custom "qs" = JObject customQs)
  (Hcb : obj_get custom "body" = JUndefined)
  (Hdistinct : distinct_keys customHeaders /\ distinct_keys customQs /\
               (forall h, headers requestOptions = Some h ->
                          distinct_keys h) /\
               (forall q, qs requestOptions = Some q -> distinct_keys q)) :
  exists sent h' q',
    dispatch ctx "genericCredentialType" itemIndex requestOptions
    = Ok (httpRequest sent) /\
    headers sent = Some h' /\
    qs sent = Some q' /\
    (forall k,
       obj_lookup h' k
       = match obj_lookup customHeaders k with
         | Some v => Some v
         | None =>
             match headers requestOptions with
             | Some h => obj_lookup h k
             | None => None
             end
         end) /\
    (forall k,
       obj_lookup q' k
       = match obj_lookup customQs k with
         | Some v => Some v
         | None =>
             match qs requestOptions with
             | Some q => obj_lookup q k
             | None => None
             end
         end) /\
    body sent = body requestOptions /\
    auth sent = auth requestOptions /\
    url sent = url requestOptions /\
    method sent = method requestOptions.
Proof.
  destruct Hdistinct as (Dch & Dcq & Dh & Dq).
  unfold dispatch. enter_branch Hkind. rewrite Hcred; simpl.
  rewrite Hjson.
  destruct json as [|c json']; [congruence|].
  simpl truthy. cbv iota. simpl ToString.
  unfold jsonParse. rewrite Hparse. simpl.
  rewrite Hch, Hcq, Hcb. cbn [truthy qs set_headers].
  eexists. eexists. eexists.
  split; [reflexivity|]. split; [reflexivity|]. split; [reflexivity|].
  split; [intros k; now apply obj_lookup_spread_optional|].
  split; [intros k; now apply obj_lookup_spread_optional|].
  repeat split.
Qed.

(** X8: with [httpCustomAuth] and a credential whose JSON text parses to
    [null], nothing is sent: reading [headers] of [null] throws a
    [TypeError]. *)
Theorem custom_auth_null_json
  (ctx : IExecuteFunctions) (itemIndex : Z) (credential : IDataObject)
  (json : string) (requestOptions : IHttpRequestOptions)
  (Hkind : getNodeParameter_string ctx "genericAuthType" itemIndex None
             = Ok "httpCustomAuth")
  (Hcred : getCredentials ctx "httpCustomAuth" itemIndex = Ok credential)
  (Hjson : obj_get credential "json" = JString json)
  (Hnonempty : json <> "")
  (Hparse : JSON_parse json = Ok JNull) :
  dispatch ctx "genericCredentialType" itemIndex requestOptions
  = Throw (TypeError "Cannot read properties of null (reading 'headers')").
Proof.
  unfold dispatch. enter_branch Hkind. rewrite Hcred; simpl.
  rewrite Hjson.
  destruct json as [|c json']; [congruence|].
  simpl truthy. cbv iota. simpl ToString.
  unfold jsonParse. rewrite Hparse. reflexivity.
Qed.

(** Proves that a string is one of a list of literals. *)
Ltac member := simpl; repeat (first [left; reflexivity | right]).

(** One step through a dispatcher run that is known to have returned. *)
Ltac unravel H :=
  match type of H with
  | Throw _ = Ok _ => discriminate H
  | Ok _ = Ok _ => injection H as H; subst
  | context [bind ?r _] =>
      lazymatch r with
      | context [bind _ _] => fail
      | context [if _ then _ else _] => fail
      | _ => idtac
      end;
      let E := fresh "E" in destruct r eqn:E; cbn [bind] in H
  | context [if ?b then _ else _] =>
      let E := fresh "E" in destruct b eqn:E
  | context [match headers ?r with _ => _ end] =>
      let E := fresh "E" in destruct (headers r) eqn:E
  end.

(** Closes a conjunction of equations and of disjunctions one side of which
    is an equation that holds by computation, in each case of the truthiness
    tests left in the goal. *)
Ltac owned :=
  repeat match goal with
         | |- context [if truthy ?v then _ else _] => destruct (truthy v)
         end;
  simpl; repeat split;
  first [ reflexivity
        | left; reflexivity
        | right; left; reflexivity
        | right; right; reflexivity
        | right; reflexivity ].

(** X9: whatever the mode, the kind and the credential, a request that is
    sent has the [url] and the [method] it was given, and each other field
    either is as it was given or belongs to the strategy that ran: [auth] to
    basic and digest, [headers] to header and custom, [qs] to query and
    custom, [body] to custom. *)
Theorem strategies_own_their_fields
  (ctx : IExecuteFunctions) (authMode : string) (itemIndex : Z)
  (kind : string) (requestOptions : IHttpRequestOptions) (c : call)
  (Hkind : authMode = "genericCredentialType" ->
           getNodeParameter_string ctx "genericAuthType" itemIndex None
           = Ok kind)
  (Hcall : dispatch ctx authMode itemIndex requestOptions = Ok c) :
  url (request_of c) = url requestOptions /\
  method (request_of c) = method requestOptions /\
  (auth (request_of c) = auth requestOptions \/
   kind = "httpBasicAuth" \/ kind = "httpDigestAuth") /\
  (headers (request_of c) = headers requestOptions \/
   kind = "httpHeaderAuth" \/ kind = "httpCustomAuth") /\
  (qs (request_of c) = qs requestOptions \/
   kind = "httpQueryAuth" \/ kind = "httpCustomAuth") /\
  (body (request_of c) = body requestOptions \/
   kind = "httpCustomAuth").
Proof.
  unfold dispatch, configureHttpRequestFunction in Hcall.
  destruct (String.eqb_spec authMode "genericCredentialType") as [Hmode|Hmode].
  - rewrite (Hkind Hmode) in Hcall. cbn [bind] in Hcall.
    destruct (String.eqb_spec kind "httpBasicAuth") as [->|N1];
      [cbn [bind orb] in Hcall; repeat unravel Hcall; simpl; owned|].
    destruct (String.eqb_spec kind "httpDigestAuth") as [->|N2];
      [cbn [bind orb] in Hcall; repeat unravel Hcall; simpl; owned|].
    cbn [orb] in Hcall.
    destruct (String.eqb_spec kind "httpHeaderAuth") as [->|N3];
      [cbn [bind orb] in Hcall; repeat unravel Hcall; simpl; owned|].
    destruct (String.eqb_spec kind "httpQueryAuth") as [->|N4];
      [cbn [bind orb] in Hcall; repeat unravel Hcall; simpl; owned|].
    destruct (String.eqb_spec kind "httpCustomAuth") as [->|N5];
      [cbn [bind orb] in Hcall; repeat unravel Hcall; simpl; owned|].
    destruct (String.eqb_spec kind "oAuth1Api") as [->|N6];
      [cbn [bind orb] in Hcall; repeat unravel Hcall; simpl; owned|].
    destruct (String.eqb_spec kind "oAuth2Api") as [->|N7];
      cbn [bind orb] in Hcall; repeat unravel Hcall; simpl; owned.
  - destruct (String.eqb authMode "predefinedCredentialType");
      cbn [bind orb] in Hcall; repeat unravel Hcall; simpl; owned.
Qed.

(** X10: the strategies that delegate (oAuth1Api, oAuth2Api, a predefined
    credential type) and the plain fallback hand the request over exactly as
    they were given it. *)
Theorem delegating_strategies_pass_the_request
  (ctx : IExecuteFunctions) (authMode : string) (itemIndex : Z)
  (kind : string) (requestOptions : IHttpRequestOptions) (c : call)
  (Hkind : authMode = "genericCredentialType" ->
           getNodeParameter_string ctx "genericAuthType" itemIndex None
           = Ok kind /\
           ~ In kind ["httpBasicAuth"; "httpDigestAuth"; "httpHeaderAuth";
                      "httpQueryAuth"; "httpCustomAuth"])
  (Hcall : dispatch ctx authMode itemIndex requestOptions = Ok c) :
  request_of c = requestOptions /\
  (authMode = "genericCredentialType" -> kind = "oAuth1Api" ->
   c = requestOAuth1 "oAuth1Api" requestOptions) /\
  (authMode <> "genericCredentialType" ->
   authMode <> "predefinedCredentialType" ->
   c = httpRequest requestOptions).
Proof.
  unfold dispatch, configureHttpRequestFunction in Hcall.
  destruct (String.eqb_spec authMode "genericCredentialType") as [Hmode|Hmode].
  - destruct (Hkind Hmode) as [Hk Hnot]. rewrite Hk in Hcall.
    cbn [bind] in Hcall. simpl in Hnot.
    destruct (String.eqb_spec kind "httpBasicAuth"); [exfalso; apply Hnot; subst; member|].
    destruct (String.eqb_spec kind "httpDigestAuth"); [exfalso; apply Hnot; subst; member|].
    cbn [orb] in Hcall.
    destruct (String.eqb_spec kind "httpHeaderAuth"); [exfalso; apply Hnot; subst; member|].
    destruct (String.eqb_spec kind "httpQueryAuth"); [exfalso; apply Hnot; subst; member|].
    destruct (String.eqb_spec kind "httpCustomAuth"); [exfalso; apply Hnot; subst; member|].
    destruct (String.eqb_spec kind "oAuth1Api") as [->|N6];
      [cbn [bind orb] in Hcall; repeat unravel Hcall; simpl;
      repeat split; intros; congruence|].
    destruct (String.eqb_spec kind "oAuth2Api") as [->|N7];
      cbn [bind orb] in Hcall; repeat unravel Hcall; simpl;
      repeat split; intros; congruence.
  - destruct (String.eqb_spec authMode "predefinedCredentialType");
      cbn [bind orb] in Hcall; repeat unravel Hcall; simpl;
      repeat split; intros; congruence.
Qed.

(** *** White space *)

Lemma newline_is_space (c : ascii) : is_newline c = true -> is_space c = true.
Proof.
  unfold is_newline, is_space.
  destruct (nat_of_ascii c) as [|n]; [discriminate|].
  do 13 (destruct n as [|n]; try discriminate; try reflexivity).
Qed.

Lemma trimStart_head (s : string) :
  trimStart s = EmptyString \/
  exists c r, trimStart s = String c r /\ is_space c = false.
Proof.
  induction s as [|c s IH]; simpl; [now left|].
  destruct (is_space c) eqn:E; [exact IH|].
  right. now exists c, s.
Qed.

Lemma trimStart_snoc (u : string) (c : ascii) :
  is_space c = false ->
  exists w, trimStart (String.append u (String c EmptyString))
            = String.append w (String c EmptyString).
Proof.
  intros Hc. induction u as [|x u IH]; simpl.
  - rewrite Hc. now exists EmptyString.
  - destruct (is_space x); [exact IH|].
    now exists (String x u).
Qed.

Lemma trimEnd_head (c : ascii) (r : string) :
  is_space c = false -> exists r', trimEnd (String c r) = String c r'.
Proof.
  intros Hc. unfold trimEnd. simpl.
  destruct (trimStart_snoc (string_rev r) c Hc) as [w Hw].
  rewrite Hw, string_rev_append. simpl. now eexists.
Qed.

Lemma trimEnd_last (t : string) :
  trimEnd t = EmptyString \/
  exists p c, trimEnd t = String.append p (String c EmptyString) /\
              is_space c = false.
Proof.
  unfold trimEnd.
  destruct (trimStart_head (string_rev t)) as [-> | (c & r & -> & Hc)].
  - now left.
  - right. simpl. now exists (string_rev r), c.
Qed.

Lemma trim_no_outer_space (s : string) : no_outer_space (trim s).
Proof.
  unfold trim, no_outer_space.
  destruct (trimStart_head s) as [-> | (c & r & -> & Hc)]; [now left|].
  destruct (trimEnd_head c r Hc) as [r' Hr'].
  right. split.
  - rewrite Hr'. now exists c, r'.
  - destruct (trimEnd_last (String c r)) as [H | H]; [congruence | exact H].
Qed.

Lemma no_outer_space_trim (s : string) : no_outer_space s -> trim s = s.
Proof.
  intros [-> | [(c & r & -> & Hc) (p & d & Hp & Hd)]]; [reflexivity|].
  unfold trim. simpl trimStart. rewrite Hc.
  unfold trimEnd. rewrite Hp, string_rev_append. simpl.
  rewrite Hd. rewrite <- Hp.
  change (String d (string_rev p))
    with (String.append (String d EmptyString) (string_rev p)).
  rewrite string_rev_append, string_rev_involutive. simpl. now rewrite <- Hp.
Qed.

Lemma remove_newlines_append (a b : string) :
  remove_newlines (String.append a b)
  = String.append (remove_newlines a) (remove_newlines b).
Proof.
  induction a as [|c a IH]; simpl; [reflexivity|].
  destruct (is_newline c); simpl; now rewrite IH.
Qed.

Lemma collapse_from_snoc (b : bool) (p : string) (c : ascii) :
  is_space c = false ->
  collapse_from b (String.append p (String c EmptyString))
  = String.append (collapse_from b p) (String c EmptyString).
Proof.
  intros Hc. revert b; induction p as [|x p IH]; intros b; simpl.
  - now rewrite Hc.
  - destruct (is_space x); [destruct b|]; simpl; now rewrite IH.
Qed.

Lemma not_space_not_newline (c : ascii) :
  is_space c = false -> is_newline c = false.
Proof.
  intros Hc. destruct (is_newline c) eqn:E; [|reflexivity].
  apply newline_is_space in E. congruence.
Qed.

Lemma remove_newlines_no_outer_space (s : string) :
  no_outer_space s -> no_outer_space (remove_newlines s).
Proof.
  intros [-> | [(c & r & -> & Hc) (p & d & Hp & Hd)]]; [now left|].
  right. split.
  - simpl. rewrite (not_space_not_newline c Hc). now eexists _, _.
  - rewrite Hp, remove_newlines_append. simpl.
    rewrite (not_space_not_newline d Hd). now eexists _, _.
Qed.

Lemma collapse_spaces_no_outer_space (s : string) :
  no_outer_space s -> no_outer_space (collapse_spaces s).
Proof.
  unfold collapse_spaces.
  intros [-> | [(c & r & -> & Hc) (p & d & Hp & Hd)]]; [now left|].
  right. split.
  - simpl. rewrite Hc. now eexists _, _.
  - rewrite Hp, collapse_from_snoc by assumption. now eexists _, _.
Qed.

Lemma collapse_from_single_spaced (b : bool) (s : string) :
  single_spaced b (collapse_from b s) = true.
Proof.
  revert b; induction s as [|c s IH]; intros b; simpl; [reflexivity|].
  destruct (is_space c) eqn:Hc.
  - destruct b; [apply IH|]. simpl. apply IH.
  - simpl. destruct (Ascii.eqb_spec c " "%char) as [->|_]; [discriminate|].
    rewrite Hc. simpl. apply IH.
Qed.

Lemma single_spaced_no_newline (b : bool) (s : string) :
  single_spaced b s = true -> remove_newlines s = s.
Proof.
  revert b; induction s as [|c s IH]; intros b; simpl; [reflexivity|].
  destruct (Ascii.eqb_spec c " "%char) as [->|_].
  - intros H. apply andb_true_iff in H. destruct H as [_ H].
    simpl. now rewrite (IH true).
  - intros H. apply andb_true_iff in H. destruct H as [Hc H].
    apply negb_true_iff in Hc.
    rewrite (not_space_not_newline c Hc). now rewrite (IH false).
Qed.

Lemma single_spaced_collapse (b : bool) (s : string) :
  single_spaced b s = true -> collapse_from b s = s.
Proof.
  revert b; induction s as [|c s IH]; intros b; simpl; [reflexivity|].
  destruct (Ascii.eqb_spec c " "%char) as [->|_].
  - intros H. apply andb_true_iff in H. destruct H as [Hb H].
    apply negb_true_iff in Hb. subst b. simpl. now rewrite (IH true).
  - intros H. apply andb_true_iff in H. destruct H as [Hc H].
    apply negb_true_iff in Hc. rewrite Hc. now rewrite (IH false).
Qed.

Lemma normalizeWhitespace_trimmed (value : string) :
  trim (normalizeWhitespace value) = normalizeWhitespace value.
Proof.
  apply no_outer_space_trim. unfold normalizeWhitespace.
  apply collapse_spaces_no_outer_space, remove_newlines_no_outer_space.
  apply trim_no_outer_space.
Qed.

(** A string with clean white space is a fixed point of the
    normalization. *)
Lemma clean_is_fixed (v : string) :
  single_spaced false v = true -> trim v = v -> normalizeWhitespace v = v.
Proof.
  intros Hs Ht. unfold normalizeWhitespace. rewrite !Ht.
  rewrite (single_spaced_no_newline false _ Hs).
  apply (single_spaced_collapse false _ Hs).
Qed.

(** X11: the text the html optimizer keeps of an element has plain single
    spaces as its only white space (no newline, no tab, no run of spaces),
    neither starts nor ends with white space, and is left as it is by a
    second normalization. *)
Theorem normalizeWhitespace_is_clean (value : string) :
  single_spaced false (normalizeWhitespace value) = true /\
  trim (normalizeWhitespace value) = normalizeWhitespace value /\
  normalizeWhitespace (normalizeWhitespace value) = normalizeWhitespace value.
Proof.
  assert (Hs : single_spaced false (normalizeWhitespace value) = true)
    by apply collapse_from_single_spaced.
  pose proof (normalizeWhitespace_trimmed value) as Ht.
  split; [exact Hs|]. split; [exact Ht|].
  now apply clean_is_fixed.
Qed.

Lemma mapM_pure {A B : Type} (f : A -> result B) (g : A -> B) (xs : list A) :
  (forall x, f x = Ok (g x)) -> mapM f xs = Ok (map g xs).
Proof.
  intros Hf. induction xs as [|x xs IH]; simpl; [reflexivity|].
  now rewrite Hf, IH.
Qed.

Lemma mapM_each {A B : Type} (f : A -> result B) (xs : list A) (ys : list B) :
  Forall2 (fun x y => f x = Ok y) xs ys -> mapM f xs = Ok ys.
Proof.
  induction 1 as [|x y xs ys Hxy _ IH]; simpl; [reflexivity|].
  now rewrite Hxy, IH.
Qed.

(** X12: on a string response and with [onlyContent] unset, the html
    optimizer throws what cheerio throws on the selector; when cheerio
    returns the matched elements it serializes the array that holds, for
    each element and in their order, the normalized inner HTML of that
    element, which is the empty array when nothing matches. *)
Theorem html_one_string_per_element
  (ctx : IExecuteFunctions) (itemIndex : Z) (cssSelector : string)
  (elementsToOmit : list string) (response : string) :
  optimizeHtml ctx itemIndex cssSelector false elementsToOmit
    (JString response)
  = match cheerio_html response cssSelector with
    | Ok elements =>
        Ok (JSON_stringify (JArray (map JString
              (map (fun el => normalizeWhitespace (innerHtml el))
                 elements))))
    | Throw e => Throw e
    end.
Proof.
  unfold optimizeHtml.
  destruct (cheerio_html response cssSelector) as [elements|e];
    [|reflexivity].
  cbn [bind].
  rewrite (mapM_pure _ (fun el => normalizeWhitespace (innerHtml el)));
    [reflexivity|].
  intros el. reflexivity.
Qed.

(** X13: with [onlyContent], an [elementsToOmit] given as a list is ignored
    and the flattener gets no options, while one given as a string always
    makes a [selectors] option of its trimmed comma-separated pieces, the
    empty string giving one empty selector.  The flattener is called with
    these options on the inner HTML of each matched element: what it
    returns is normalized and serialized in the order of the elements, and
    what it throws on the first element is thrown. *)
Theorem html_elementsToOmit_only_as_string
  (ctx : IExecuteFunctions) (itemIndex : Z) (cssSelector : string)
  (elementsToOmitUi : string + list string)
  (Hon : getNodeParameter_boolean ctx "optimizeResponse" itemIndex (Some false)
           = Ok true)
  (Htype : getNodeParameter_string ctx "responseType" itemIndex None
             = Ok "html")
  (Hcss : getNodeParameter_string ctx "cssSelector" itemIndex (Some "")
            = Ok cssSelector)
  (Hcontent : getNodeParameter_boolean ctx "onlyContent" itemIndex (Some false)
                = Ok true)
  (Homit : getNodeParameter_strings ctx "elementsToOmit" itemIndex
             (Some (inl "")) = Ok elementsToOmitUi) :
  exists f options,
    configureResponseOptimizer ctx itemIndex = Ok f /\
    options
    = match elementsToOmitUi with
      | inl s =>
          Some (map (fun sel => {| selector := sel; format := "skip" |})
                  (map trim (split ","%char s)))
      | inr _ => None
      end /\
    (elementsToOmitUi = inl "" ->
     options = Some [ {| selector := ""; format := "skip" |} ]) /\
    (forall response elements texts,
       cheerio_html response cssSelector = Ok elements ->
       Forall2 (fun el text => convert (innerHtml el) options = Ok text)
         elements texts ->
       f (JString response)
       = Ok (JSON_stringify (JArray (map JString
               (map normalizeWhitespace texts))))) /\
    (forall response el elements e,
       cheerio_html response cssSelector = Ok (el :: elements) ->
       convert (innerHtml el) options = Throw e ->
       f (JString response) = Throw e).
Proof.
  unfold configureResponseOptimizer.
  rewrite Hon; simpl. rewrite Htype; simpl. rewrite Hcss; simpl.
  rewrite Hcontent; simpl. rewrite Homit; simpl.
  set (options := match elementsToOmitUi with
                  | inl s =>
                      Some (map (fun sel =>
                                   {| selector := sel; format := "skip" |})
                              (map trim (split ","%char s)))
                  | inr _ => None
                  end).
  assert (Hclosure : forall response,
    optimizeHtml ctx itemIndex cssSelector true
      match elementsToOmitUi with
      | inl s => map trim (split ","%char s)
      | inr _ => []
      end (JString response)
    = (elements <- cheerio_html response cssSelector ;;
       values <- mapM (fun el =>
                         text <- convert (innerHtml el) options ;;
                         Ok (normalizeWhitespace text)) elements ;;
       Ok (JSON_stringify (JArray (map JString values))))).
  { intros response. unfold optimizeHtml, options.
    destruct elementsToOmitUi as [s|l]; [|reflexivity].
    pose proof (split_from_nonempty ","%char s EmptyString) as Hne.
    fold (split ","%char s) in Hne.
    destruct (split ","%char s) as [|x l]; [congruence | reflexivity]. }
  exists (optimizeHtml ctx itemIndex cssSelector true
            match elementsToOmitUi with
            | inl s => map trim (split ","%char s)
            | inr _ => []
            end), options.
  split; [destruct elementsToOmitUi; reflexivity|].
  split; [reflexivity|].
  split; [intros ->; reflexivity|].
  split.
  - intros response elements texts Hels Hall.
    rewrite Hclosure, Hels. cbn [bind].
    rewrite (mapM_each _ elements (map normalizeWhitespace texts));
      [reflexivity|].
    clear Hels.
    induction Hall as [|el text elements texts Hel _ IH]; constructor.
    + now rewrite Hel.
    + exact IH.
  - intros response el elements e Hels Hthrow.
    rewrite Hclosure, Hels. cbn [bind mapM]. now rewrite Hthrow.
Qed.

(** *** The text optimizer *)

Lemma prefix_refl (s : string) : String.prefix s s = true.
Proof.
  induction s as [|c s IH]; simpl; [reflexivity|].
  destruct (ascii_dec c c); [exact IH | congruence].
Qed.

Lemma prefix_substring (n : nat) (s : string) :
  String.prefix (String.substring 0 n s) s = true.
Proof.
  revert n; induction s as [|c s IH]; intros [|n]; simpl; try reflexivity.
  destruct (ascii_dec c c); [apply IH | congruence].
Qed.

Lemma length_substring (n : nat) (s : string) :
  String.length (String.substring 0 n s) = Nat.min n (String.length s).
Proof.
  revert n; induction s as [|c s IH]; intros [|n]; simpl; try reflexivity.
  now rewrite IH.
Qed.

Lemma positive_number (m e : Z) :
  number_gt (Finite m e) (number_of_Z 0) = true -> 0 < m.
Proof.
  unfold number_gt, number_of_Z, align. intros H. apply Z.ltb_lt in H.
  assert (0 < 2 ^ (e - Z.min e 0)) by (apply Z.pow_pos_nonneg; lia).
  nia.
Qed.

(** A length cut at [maxLength] no longer exceeds [maxLength]. *)
Lemma clamped_not_above (m e len : Z) :
  0 < m -> 0 <= len ->
  number_gt (Finite (clamp_index (Finite m e) len) 0) (Finite m e) = false.
Proof.
  intros Hm Hlen. unfold number_gt, align, clamp_index.
  apply Z.ltb_ge.
  destruct (Z.leb_spec 0 e) as [He|He].
  - rewrite (Z.min_l 0 e) by lia. rewrite ?Z.sub_0_r, ?Z.sub_diag. simpl (2 ^ 0).
    assert (0 < 2 ^ e) by (apply Z.pow_pos_nonneg; lia).
    lia.
  - rewrite (Z.min_r 0 e) by lia. rewrite ?Z.sub_diag, ?Z.sub_0_l. simpl (2 ^ 0).
    assert (Hp : 0 < 2 ^ (- e)) by (apply Z.pow_pos_nonneg; lia).
    rewrite Z.quot_div_nonneg by lia.
    pose proof (Z.mul_div_le m (2 ^ (- e)) Hp).
    assert (0 <= m / 2 ^ (- e)) by (apply Z.div_pos; lia).
    replace (0 - e) with (- e) by lia.
    set (P := 2 ^ (- e)) in *. set (q := m / P) in *.
    assert (Hcut : 0 <= Z.min (Z.max q 0) len <= q) by lia.
    nia.
Qed.

(** X14: for every [maxLength], fractions, infinities and [NaN] included,
    the text optimizer returns a prefix of the string it is given, and
    applying it to its result changes nothing more. *)
Theorem text_output_is_a_stable_prefix
  (ctx : IExecuteFunctions) (itemIndex : Z) (maxLength : number) (s : string) :
  exists out,
    optimizeText ctx itemIndex maxLength (JString s) = Ok out /\
    String.prefix out s = true /\
    optimizeText ctx itemIndex maxLength (JString out) = Ok out.
Proof.
  unfold optimizeText.
  destruct (number_gt maxLength (number_of_Z 0)
            && number_gt (number_of_nat (String.length s)) maxLength) eqn:E.
  - eexists. split; [reflexivity|]. split; [apply prefix_substring|].
    apply andb_true_iff in E. destruct E as [E1 E2].
    destruct maxLength as [m e| [|] |]; try discriminate.
    pose proof (positive_number m e E1) as Hm.
    rewrite E1. unfold substring_to, number_of_nat.
    rewrite length_substring.
    set (len := Z.of_nat (String.length s)).
    assert (Hk : 0 <= clamp_index (Finite m e) len <= len).
    { unfold clamp_index. lia. }
    replace (Z.of_nat (Nat.min (Z.to_nat (clamp_index (Finite m e) len))
                         (String.length s)))
      with (clamp_index (Finite m e) len) by (unfold len in *; lia).
    rewrite clamped_not_above by (unfold len; lia).
    reflexivity.
  - exists s. rewrite E. repeat split. apply prefix_refl.
Qed.

(** *** The json optimizer and the fallback *)

Lemma optimizeJson_parsed
  (ctx : IExecuteFunctions) (itemIndex : Z) (response responseData : value)
  (K : value -> result string) :
  match response with
  | JString s => JSON_parse s
  | _ => Ok response
  end = Ok responseData ->
  (responseData <-
     match response with
     | JString s => jsonParse s None
     | _ => Ok response
     end ;; K responseData)
  = K responseData.
Proof.
  intros H. destruct response; try (injection H as <-; reflexivity).
  unfold jsonParse. rewrite H. reflexivity.
Qed.

(** X15: a response that is, or as a string parses to, anything but an
    object or an array ([null], a number, a string, a boolean) makes the
    json optimizer throw a [NodeOperationError] that carries the item
    index. *)
Theorem json_rejects_what_is_not_an_object
  (ctx : IExecuteFunctions) (itemIndex : Z) (response responseData : value)
  (Hparsed : match response with
             | JString s => JSON_parse s
             | _ => Ok response
             end = Ok responseData)
  (Hnot : isObject responseData = false) :
  optimizeJson ctx itemIndex response
  = Throw (NodeOperationError (getNode ctx)
             "The response type must be an object or an array of objects"
             itemIndex).
Proof.
  unfold optimizeJson.
  rewrite (optimizeJson_parsed ctx itemIndex response responseData _ Hparsed).
  destruct responseData as [ | | ? | ? | ? | ? | ? | [|] ? ];
      try discriminate; reflexivity.
Qed.

(** X16: with a [fieldsToInclude] that is none of [all], [selected] and
    [except], the json optimizer serializes the empty array whatever the
    response holds. *)
Theorem json_unknown_projection_is_empty
  (ctx : IExecuteFunctions) (itemIndex : Z) (response responseData : value)
  (dataField fieldsToInclude : string) (working : list value)
  (fields : string + list string)
  (Hparsed : match response with
             | JString s => JSON_parse s
             | _ => Ok response
             end = Ok responseData)
  (Hobject : isObject responseData = true)
  (Hfield : getNodeParameter_string ctx "dataField" itemIndex (Some "")
              = Ok dataField)
  (Hworking : unwrapDataField responseData dataField = Ok working)
  (Hmode : getNodeParameter_string ctx "fieldsToInclude" itemIndex
             (Some "all") = Ok fieldsToInclude)
  (Hunknown : ~ In fieldsToInclude ["all"; "selected"; "except"])
  (Hfields : getNodeParameter_strings ctx "fields" itemIndex (Some (inr []))
             = Ok fields) :
  optimizeJson ctx itemIndex response = Ok (JSON_stringify (JArray [])).
Proof.
  unfold optimizeJson.
  rewrite (optimizeJson_parsed ctx itemIndex response responseData _ Hparsed).
  assert (Hgate : negb (String.eqb (typeof responseData) "object")
                  || negb (truthy responseData) = false)
    by (destruct responseData as [ | | ? | ? | ? | ? | ? | [|] ? ];
      try discriminate; reflexivity).
  rewrite Hgate, Hfield; simpl. rewrite Hworking; simpl. rewrite Hmode; simpl.
  simpl in Hunknown.
  destruct (String.eqb_spec fieldsToInclude "all"); [exfalso; apply Hunknown; subst; member|].
  destruct (String.eqb_spec fieldsToInclude "selected"); [exfalso; apply Hunknown; subst; member|].
  destruct (String.eqb_spec fieldsToInclude "except"); [exfalso; apply Hunknown; subst; member|].
  simpl. rewrite Hfields. reflexivity.
Qed.

(** X17: with [selected] and with [except] the output array has exactly one
    item for each item of the working array.  With no field listed,
    [except] gives the working array itself and [selected] gives an empty
    object for each item. *)
Theorem json_projection_is_one_to_one
  (ctx : IExecuteFunctions) (itemIndex : Z) (response responseData : value)
  (dataField fieldsToInclude : string) (working : list value)
  (fields : string + list string)
  (Hparsed : match response with
             | JString s => JSON_parse s
             | _ => Ok response
             end = Ok responseData)
  (Hobject : isObject responseData = true)
  (Hfield : getNodeParameter_string ctx "dataField" itemIndex (Some "")
              = Ok dataField)
  (Hworking : unwrapDataField responseData dataField = Ok working)
  (Hmode : getNodeParameter_string ctx "fieldsToInclude" itemIndex
             (Some "all") = Ok fieldsToInclude)
  (Hproject : fieldsToInclude = "selected" \/ fieldsToInclude = "except")
  (Hfields : getNodeParameter_strings ctx "fields" itemIndex (Some (inr []))
             = Ok fields) :
  exists out,
    optimizeJson ctx itemIndex response = Ok (JSON_stringify (JArray out)) /\
    List.length out = List.length working /\
    (parseFields fields = [] -> fieldsToInclude = "except" ->
     out = working) /\
    (parseFields fields = [] -> fieldsToInclude = "selected" ->
     out = map (fun _ => JObject []) working).
Proof.
  unfold optimizeJson.
  rewrite (optimizeJson_parsed ctx itemIndex response responseData _ Hparsed).
  assert (Hgate : negb (String.eqb (typeof responseData) "object")
                  || negb (truthy responseData) = false)
    by (destruct responseData as [ | | ? | ? | ? | ? | ? | [|] ? ];
      try discriminate; reflexivity).
  rewrite Hgate, Hfield; simpl. rewrite Hworking; simpl. rewrite Hmode; simpl.
  destruct Hproject as [-> | ->]; simpl; rewrite Hfields; simpl;
    (eexists; split; [reflexivity|]); (split; [apply length_map|]).
  - split; [discriminate|]. intros -> _. reflexivity.
  - split; [|discriminate]. intros -> _. simpl. apply map_id.
Qed.

(** X18: with no [dataField] and [fieldsToInclude = all], an array response
    is serialized as it is and an object response as the array of that one
    object. *)
Theorem json_all_without_dataField
  (ctx : IExecuteFunctions) (itemIndex : Z) (response : value)
  (Hobject : isObject response = true)
  (Hfield : getNodeParameter_string ctx "dataField" itemIndex (Some "")
              = Ok "")
  (Hall : getNodeParameter_string ctx "fieldsToInclude" itemIndex (Some "all")
            = Ok "all") :
  optimizeJson ctx itemIndex response
  = Ok (JSON_stringify
          (JArray match response with
                  | JArray items => items
                  | _ => [response]
                  end)).
Proof.
  rewrite (optimizeJson_all ctx itemIndex response "");
    try assumption;
    destruct response as [ | | ? | ? | ? | ? | ? | [|] ? ];
    try discriminate; reflexivity.
Qed.

(** X19: with optimization enabled and a [responseType] that is none of
    [html], [text] and [json], the builder does not fail: it returns the
    fallback serializer, which gives a string back as it is. *)
Theorem unknown_responseType_falls_back
  (ctx : IExecuteFunctions) (itemIndex : Z) (responseType : string)
  (Hon : getNodeParameter_boolean ctx "optimizeResponse" itemIndex (Some false)
           = Ok true)
  (Htype : getNodeParameter_string ctx "responseType" itemIndex None
             = Ok responseType)
  (Hunknown : ~ In responseType ["html"; "text"; "json"]) :
  exists f,
    configureResponseOptimizer ctx itemIndex = Ok f /\
    (forall response, f response = serialize response) /\
    (forall s, f (JString s) = Ok s).
Proof.
  unfold configureResponseOptimizer.
  rewrite Hon; simpl. rewrite Htype; simpl. simpl in Hunknown.
  destruct (String.eqb_spec responseType "html"); [exfalso; apply Hunknown; subst; member|].
  destruct (String.eqb_spec responseType "text"); [exfalso; apply Hunknown; subst; member|].
  destruct (String.eqb_spec responseType "json"); [exfalso; apply Hunknown; subst; member|].
  built. split; intros; reflexivity.
Qed.

(** *** Field lists *)

Lemma contains_trimStart (c : ascii) (s : string) :
  contains c s = false -> contains c (trimStart s) = false.
Proof.
  induction s as [|x s IH]; simpl; [reflexivity|].
  intros H. apply orb_false_iff in H. destruct H as [Hx Hs].
  destruct (is_space x); [now apply IH|].
  simpl. now rewrite Hx, Hs.
Qed.

Lemma contains_trim (c : ascii) (s : string) :
  contains c s = false -> contains c (trim s) = false.
Proof.
  intros H. unfold trim, trimEnd.
  rewrite contains_rev. apply contains_trimStart.
  rewrite contains_rev. now apply contains_trimStart.
Qed.

(** X20: a field list given as one string yields one field more than the
    string has commas; each field is trimmed and has no comma. *)
Theorem fields_string_is_split_and_trimmed (s : string) :
  List.length (parseFields (inl s)) = S (count ","%char s) /\
  Forall (fun field => trim field = field /\
                       contains ","%char field = false)
         (parseFields (inl s)).
Proof.
  unfold parseFields, split. split.
  - now rewrite length_map, split_from_length.
  - apply Forall_forall. intros field Hin.
    apply in_map_iff in Hin. destruct Hin as (piece & <- & Hin).
    split.
    + apply no_outer_space_trim, trim_no_outer_space.
    + apply contains_trim.
      pose proof (split_from_pieces ","%char s EmptyString eq_refl) as Hall.
      rewrite Forall_forall in Hall. now apply Hall.
Qed.

End Utils.

(** ** The theorems at concrete inputs *)

Lemma plain_transport_fallback_witness :
  exists f,
    configureHttpRequestFunction print_integer parse_literal builtin_unused
      (generic_ctx "apiKey" []) "genericCredentialType" 0 = Ok f /\
    forall requestOptions, f requestOptions = Ok (httpRequest requestOptions).
Proof.
  apply (plain_transport_fallback print_integer parse_literal builtin_unused
           (generic_ctx "apiKey" []) "genericCredentialType" 0 "apiKey").
  right. split; [reflexivity|]. split; [reflexivity|].
  simpl. intuition discriminate.
Defined.

Lemma header_auth_frame_witness :
  exists f sent h',
    configureHttpRequestFunction print_integer parse_literal builtin_unused
      (generic_ctx "httpHeaderAuth"
         [("name", JString "X-Key"); ("value", JString "v1")])
      "genericCredentialType" 0 = Ok f /\
    f example_request = Ok (httpRequest sent) /\
    headers sent = Some h' /\
    obj_get h' "X-Key" = JString "v1" /\
    (forall k, k <> "X-Key" ->
       obj_lookup h' k
       = obj_lookup [("Accept", JString "application/json")] k) /\
    qs sent = qs example_request /\
    body sent = body example_request /\
    auth sent = auth example_request /\
    url sent = url example_request /\
    method sent = method example_request.
Proof.
  apply (header_auth_frame print_integer parse_literal builtin_unused
           (generic_ctx "httpHeaderAuth"
              [("name", JString "X-Key"); ("value", JString "v1")])
           0 [("name", JString "X-Key"); ("value", JString "v1")]
           "X-Key" (JString "v1") example_request
           [("Accept", JString "application/json")]);
    try reflexivity.
  discriminate.
Defined.

Lemma predefined_credential_dispatch_witness :
  exists f,
    configureHttpRequestFunction print_integer parse_literal builtin_unused
      (predefined_ctx "slackOAuth2Api") "predefinedCredentialType" 4 = Ok f /\
    forall requestOptions,
      f requestOptions
      = Ok (requestWithAuthentication "slackOAuth2Api" requestOptions
              (Some {| oauth2 := TableEntry
                         {| tokenType := Some "Bearer";
                            includeCredentialsOnRefreshOnBody := None;
                            keepBearer := None;
                            tokenExpiredStatusCode := None;
                            property := Some "authed_user.access_token";
                            keyToIncludeInAccessTokenHeader := None |} |})
              4).
Proof.
  destruct (predefined_credential_dispatch print_integer parse_literal
              builtin_unused (predefined_ctx "slackOAuth2Api") 4
              "slackOAuth2Api" eq_refl eq_refl)
    as (f & options & Hf & Hcall & Hentry & _).
  exists f. split; [exact Hf|].
  intros requestOptions. rewrite Hcall. do 2 f_equal.
  apply Hentry. unfold oAuth2Options. simpl.
  do 15 right. left. reflexivity.
Defined.

Example predefined_without_entry :
  exists f,
    configureHttpRequestFunction print_integer parse_literal builtin_unused
      (predefined_ctx "githubApi") "predefinedCredentialType" 4 = Ok f /\
    forall requestOptions,
      f requestOptions
      = Ok (requestWithAuthentication "githubApi" requestOptions None 4).
Proof.
  exists (fun requestOptions =>
            Ok (requestWithAuthentication "githubApi" requestOptions None 4)).
  split; reflexivity.
Qed.

Lemma oAuth2_uses_oAuth1_identifier_witness :
  exists f,
    configureHttpRequestFunction print_integer parse_literal builtin_unused
      (generic_ctx "oAuth2Api" []) "genericCredentialType" 0 = Ok f /\
    (forall requestOptions,
       f requestOptions
       = Ok (requestOAuth2 "oAuth1Api" requestOptions
               {| tokenType := Some "Bearer";
                  includeCredentialsOnRefreshOnBody := None;
                  keepBearer := None;
                  tokenExpiredStatusCode := None;
                  property := None;
                  keyToIncludeInAccessTokenHeader := None |})) /\
    "oAuth1Api" <> "oAuth2Api".
Proof.
  apply (oAuth2_uses_oAuth1_identifier print_integer parse_literal builtin_unused
           (generic_ctx "oAuth2Api" []) 0).
  reflexivity.
Defined.

Lemma custom_auth_malformed_json_witness :
  exists f e,
    configureHttpRequestFunction print_integer parse_literal builtin_unused
      (generic_ctx "httpCustomAuth" [("json", JString "{")])
      "genericCredentialType" 3 = Ok f /\
    (forall requestOptions, f requestOptions = Throw e) /\
    e = ParseError "Invalid Custom Auth JSON" /\
    error_message e = "Invalid Custom Auth JSON" /\
    error_itemIndex e = None.
Proof.
  apply (custom_auth_malformed_json print_integer parse_literal builtin_unused
           (generic_ctx "httpCustomAuth" [("json", JString "{")])
           3 [("json", JString "{")] "{"
           (SyntaxError "Unexpected end of JSON input"));
    try reflexivity.
  discriminate.
Defined.

Lemma custom_auth_empty_json_witness :
  exists f,
    configureHttpRequestFunction print_integer parse_literal builtin_unused
      (generic_ctx "httpCustomAuth" [("json", JNull)])
      "genericCredentialType" 0 = Ok f /\
    forall requestOptions, f requestOptions = Ok (httpRequest requestOptions).
Proof.
  apply (custom_auth_empty_json print_integer parse_literal builtin_unused
           (generic_ctx "httpCustomAuth" [("json", JNull)])
           0 [("json", JNull)]);
    try reflexivity.
  right; left; reflexivity.
Defined.

Lemma dataField_is_one_key_witness :
  (unwrapDataField builtin_unused flat_response "a.b"
   = Ok [JString "x"; JString "y"] /\
   forall items, flat_response = JArray items ->
     exists working,
       unwrapDataField builtin_unused flat_response "a.b" = Ok working /\
       List.length working = List.length items) /\
  (unwrapDataField builtin_unused
     (JArray [JObject [("id", JString "1")]; JObject []]) "id"
   = Ok [JString "1"; JUndefined] /\
   forall items,
     JArray [JObject [("id", JString "1")]; JObject []] = JArray items ->
     exists working,
       unwrapDataField builtin_unused
         (JArray [JObject [("id", JString "1")]; JObject []]) "id"
       = Ok working /\
       List.length working = List.length items) /\
  (unwrapDataField builtin_unused (JObject [("a", JString "1")]) "__proto__"
   = Ok [JNative false "Object.prototype"] /\
   forall items,
     JObject [("a", JString "1")] = JArray items ->
     exists working,
       unwrapDataField builtin_unused (JObject [("a", JString "1")])
         "__proto__" = Ok working /\
       List.length working = List.length items).
Proof.
  split; [|split].
  - apply (dataField_is_one_key builtin_unused flat_response "a.b");
      [discriminate | exact I].
  - apply (dataField_is_one_key builtin_unused
             (JArray [JObject [("id", JString "1")]; JObject []]) "id");
      [discriminate | repeat constructor].
  - apply (dataField_is_one_key builtin_unused
             (JObject [("a", JString "1")]) "__proto__");
      [discriminate | exact I].
Defined.

Lemma string_required_witness :
  optimizeHtml stringify_unused cheerio_unused convert_unused
    (optimizer_ctx "html" 0) 2 "" false [] (JObject [])
  = Throw (NodeOperationError (getNode (optimizer_ctx "html" 0))
             "The response type must be a string. Received: object" 2)
  /\
  optimizeText (optimizer_ctx "text" 0) 2 (number_of_Z 0) (JBool true)
  = Throw (NodeOperationError (getNode (optimizer_ctx "text" 0))
             "The response type must be a string. Received: boolean" 2).
Proof.
  split.
  - apply (string_required print_integer parse_literal stringify_unused
             (get_dotted builtin_unused) set_unused unset_unused cheerio_unused convert_unused builtin_unused
             (optimizer_ctx "html" 0) 2 "html");
      try reflexivity; [left; reflexivity | discriminate].
  - apply (string_required print_integer parse_literal stringify_unused
             (get_dotted builtin_unused) set_unused unset_unused cheerio_unused convert_unused builtin_unused
             (optimizer_ctx "text" 0) 2 "text");
      try reflexivity; [right; reflexivity | discriminate].
Defined.

Lemma text_truncation_witness :
  exists f,
    configureResponseOptimizer print_integer parse_literal stringify_unused
      (get_dotted builtin_unused) set_unused unset_unused cheerio_unused convert_unused builtin_unused
      (optimizer_ctx "text" 5) 0 = Ok f /\
    (forall s,
       f (JString s)
       = Ok (if (0 <? 5) && (5 <? Z.of_nat (String.length s))
             then String.substring 0 (Z.to_nat 5) s
             else s)) /\
    (5 = 0 -> forall s, f (JString s) = Ok s).
Proof.
  apply (text_truncation print_integer parse_literal stringify_unused
           (get_dotted builtin_unused) set_unused unset_unused cheerio_unused convert_unused builtin_unused
           (optimizer_ctx "text" 5) 0 5);
    reflexivity.
Defined.

Lemma fallback_idempotent_on_strings_witness :
  exists f,
    configureResponseOptimizer print_integer parse_literal stringify_unused
      (get_dotted builtin_unused) set_unused unset_unused cheerio_unused convert_unused builtin_unused
      disabled_ctx 0 = Ok f /\
    forall s,
      f (JString s) = Ok s /\
      (once <- f (JString s) ;; f (JString once)) = f (JString s).
Proof.
  apply (fallback_idempotent_on_strings print_integer parse_literal
           stringify_unused (get_dotted builtin_unused) set_unused unset_unused cheerio_unused
           convert_unused builtin_unused disabled_ctx 0).
  reflexivity.
Defined.

(** ** Where the specification and the code part *)

(** C1 as stated fails.  On the object [{a: {b: ["x"]}}] with [dataField]
    "a.b" the code reads the property named "a.b", which the object does not
    have, and works on [[undefined]], where the dotted path reaches
    [["x"]].  On the array [[null]] with [dataField] "a" the code throws,
    where the one-to-one map gives [[undefined]]. *)
Lemma dataField_is_not_a_dotted_path :
  unwrapDataField builtin_unused nested_response "a.b" = Ok [JUndefined] /\
  spec_unwrapDataField builtin_unused nested_response "a.b" = [JString "x"] /\
  unwrapDataField builtin_unused nested_response "a.b"
  <> Ok (spec_unwrapDataField builtin_unused nested_response "a.b") /\
  unwrapDataField builtin_unused (JArray [JNull]) "a"
  = Throw (TypeError "Cannot read properties of null (reading 'a')") /\
  unwrapDataField builtin_unused (JArray [JNull]) "a"
  <> Ok (spec_unwrapDataField builtin_unused (JArray [JNull]) "a").
Proof.
  repeat split; try reflexivity; discriminate.
Qed.

(** C4 as stated fails.  For the credential [{name: '__proto__', value:
    'v1'}] the assignment of line 117 runs the setter inherited from
    [Object.prototype], which stores nothing: the request is sent with the
    headers it had, and [headers['__proto__']] is [Object.prototype], not
    ['v1']. *)
Lemma header_auth_on_proto_stores_nothing :
  dispatch print_integer parse_literal builtin_unused
    (generic_ctx "httpHeaderAuth"
       [("name", JString "__proto__"); ("value", JString "v1")])
    "genericCredentialType" 0 example_request
  = Ok (httpRequest example_request) /\
  headers example_request = Some [("Accept", JString "application/json")] /\
  obj_get [("Accept", JString "application/json")] "__proto__"
  = JNative false "Object.prototype" /\
  obj_get [("Accept", JString "application/json")] "__proto__"
  <> JString "v1".
Proof.
  repeat split; try reflexivity; discriminate.
Qed.

(** C7 as stated fails.  The static table has no entry named
    [constructor], yet [oAuth2Options['constructor']] is the function
    [Object] that the object literal inherits, and it is passed as the
    [oauth2] option. *)
Lemma predefined_inherited_name_gets_a_wrapper :
  dispatch print_integer parse_literal builtin_unused
    (predefined_ctx "constructor") "predefinedCredentialType" 0
    example_request
  = Ok (requestWithAuthentication "constructor" example_request
          (Some {| oauth2 := PrototypeMember (JNative true "Object") |}) 0) /\
  table_lookup oAuth2Options "constructor" = None /\
  (Some {| oauth2 := PrototypeMember (JNative true "Object") |}
   <> @None IAdditionalCredentialOptions).
Proof.
  repeat split; try reflexivity; discriminate.
Qed.

(** C2 as stated fails.  For the malformed credential string "{" and item
    index 3 the error raised has the message of the claim and no item index.
    For the empty string, which is malformed JSON as well, nothing is
    raised: ['{}'] is parsed in its place. *)
Lemma custom_auth_error_has_no_index :
  parse_literal "{" = Throw (SyntaxError "Unexpected end of JSON input") /\
  dispatch print_integer parse_literal builtin_unused
    (generic_ctx "httpCustomAuth" [("json", JString "{")])
    "genericCredentialType" 3 example_request
  = Throw (ParseError "Invalid Custom Auth JSON") /\
  error_itemIndex (ParseError "Invalid Custom Auth JSON") <> Some 3 /\
  parse_literal "" = Throw (SyntaxError "Unexpected end of JSON input") /\
  dispatch print_integer parse_literal builtin_unused
    (generic_ctx "httpCustomAuth" [("json", JString "")])
    "genericCredentialType" 3 example_request
  = Ok (httpRequest example_request).
Proof.
  repeat split; try reflexivity; discriminate.
Qed.

(** C5 as stated fails.  On [null] the html optimizer and the text
    optimizer raise a [NodeOperationError] with the message "The response
    type must be a string. Received: object", not a [TypeError] with the
    message "response must be a string". *)
Lemma string_required_is_not_a_TypeError :
  optimize print_integer parse_literal stringify_unused (get_dotted builtin_unused) set_unused
    unset_unused cheerio_unused convert_unused builtin_unused (optimizer_ctx "html" 0) 0 JNull
  = Throw (NodeOperationError
             {| node_name := "HTTP Request"; node_type := "toolHttpRequest" |}
             "The response type must be a string. Received: object" 0) /\
  optimize print_integer parse_literal stringify_unused (get_dotted builtin_unused) set_unused
    unset_unused cheerio_unused convert_unused builtin_unused (optimizer_ctx "html" 0) 0 JNull
  <> Throw (TypeError "response must be a string") /\
  optimize print_integer parse_literal stringify_unused (get_dotted builtin_unused) set_unused
    unset_unused cheerio_unused convert_unused builtin_unused (optimizer_ctx "text" 0) 0 JNull
  <> Throw (TypeError "response must be a string") /\
  error_message
    (NodeOperationError
       {| node_name := "HTTP Request"; node_type := "toolHttpRequest" |}
       "The response type must be a string. Received: object" 0)
  <> "response must be a string".
Proof.
  repeat split; try reflexivity; discriminate.
Qed.

(** ** The examples of the specification *)

Example text_maxLength_5 :
  optimize print_integer parse_literal stringify_unused (get_dotted builtin_unused) set_unused
    unset_unused cheerio_unused convert_unused builtin_unused (optimizer_ctx "text" 5) 0
    (JString "abcdefgh") = Ok "abcde".
Proof. reflexivity. Qed.

Example text_maxLength_0 :
  optimize print_integer parse_literal stringify_unused (get_dotted builtin_unused) set_unused
    unset_unused cheerio_unused convert_unused builtin_unused (optimizer_ctx "text" 0) 0
    (JString "abcdefgh") = Ok "abcdefgh".
Proof. reflexivity. Qed.

Example header_auth_X_Key :
  dispatch print_integer parse_literal builtin_unused
    (generic_ctx "httpHeaderAuth"
       [("name", JString "X-Key"); ("value", JString "v1")])
    "genericCredentialType" 0 example_request
  = Ok (httpRequest
          (set_headers example_request
             [("Accept", JString "application/json");
              ("X-Key", JString "v1")])).
Proof. reflexivity. Qed.

Example header_auth_without_headers :
  dispatch print_integer parse_literal builtin_unused
    (generic_ctx "httpHeaderAuth"
       [("name", JString "X-Key"); ("value", JString "v1")])
    "genericCredentialType" 0
    {| url := "https://example.com"; method := "GET"; headers := None;
       qs := None; body := JUndefined; auth := None |}
  = Throw (TypeError "Cannot set properties of undefined (setting 'X-Key')").
Proof. reflexivity. Qed.

Example digest_auth_sendImmediately :
  dispatch print_integer parse_literal builtin_unused
    (generic_ctx "httpDigestAuth"
       [("user", JString "u"); ("password", JString "p")])
    "genericCredentialType" 0 example_request
  = Ok (httpRequest
          (set_auth example_request
             {| username := JString "u"; password := JString "p";
                sendImmediately := Some false |})).
Proof. reflexivity. Qed.

(** ** The further properties at concrete inputs *)

Example prettify_get_weather :
  prettifyToolName upper_unused "get_weather_now" = Ok "Get Weather Now".
Proof. reflexivity. Qed.

Example prettify_trailing_underscore :
  prettifyToolName upper_unused "get_"
  = Throw (TypeError
      "Cannot read properties of undefined (reading 'toUpperCase')").
Proof. reflexivity. Qed.

Lemma prettifyToolName_replaces_underscores_witness :
  exists pretty,
    prettifyToolName upper_unused "get_weather" = Ok pretty /\
    String.length pretty = String.length "get_weather" /\
    contains "_"%char pretty = false.
Proof.
  apply (prettifyToolName_replaces_underscores upper_unused "get_weather");
    reflexivity.
Defined.

Lemma prettifyToolName_idempotent_witness :
  exists pretty,
    prettifyToolName upper_unused "get_weather" = Ok pretty /\
    prettifyToolName upper_unused pretty = Ok pretty.
Proof.
  apply (prettifyToolName_idempotent upper_unused "get_weather");
    reflexivity.
Defined.



Lemma header_auth_needs_headers_witness :
  dispatch print_integer parse_literal builtin_unused
    (generic_ctx "httpHeaderAuth"
       [("name", JString "X-Key"); ("value", JString "v1")])
    "genericCredentialType" 0 bare_request
  = Throw (TypeError (String.append
      "Cannot set properties of undefined (setting "
      (String.append (quoted "X-Key") ")"))).
Proof.
  apply (header_auth_needs_headers print_integer parse_literal builtin_unused
           (generic_ctx "httpHeaderAuth"
              [("name", JString "X-Key"); ("value", JString "v1")])
           0 [("name", JString "X-Key"); ("value", JString "v1")]
           "X-Key" bare_request);
    reflexivity.
Defined.

Lemma custom_auth_merge_witness :
  (exists sent h' q',
     dispatch print_integer parse_example builtin_unused
       (generic_ctx "httpCustomAuth" [("json", JString custom_auth_text)])
       "genericCredentialType" 0 full_request
     = Ok (httpRequest sent) /\
     headers sent = Some h' /\
     qs sent = Some q' /\
     (forall k,
        obj_lookup h' k
        = match obj_lookup [("A", JString "1")] k with
          | Some v => Some v
          | None =>
              match headers full_request with
              | Some h => obj_lookup h k
              | None => None
              end
          end) /\
     (forall k,
        obj_lookup q' k
        = match obj_lookup [("b", JString "2")] k with
          | Some v => Some v
          | None =>
              match qs full_request with
              | Some q => obj_lookup q k
              | None => None
              end
          end) /\
     body sent = body full_request /\
     auth sent = auth full_request /\
     url sent = url full_request /\
     method sent = method full_request) /\
  (exists sent h' q',
     dispatch print_integer parse_example builtin_unused
       (generic_ctx "httpCustomAuth" [("json", JString custom_auth_text)])
       "genericCredentialType" 0 bare_request
     = Ok (httpRequest sent) /\
     headers sent = Some h' /\
     qs sent = Some q' /\
     (forall k,
        obj_lookup h' k
        = match obj_lookup [("A", JString "1")] k with
          | Some v => Some v
          | None =>
              match headers bare_request with
              | Some h => obj_lookup h k
              | None => None
              end
          end) /\
     (forall k,
        obj_lookup q' k
        = match obj_lookup [("b", JString "2")] k with
          | Some v => Some v
          | None =>
              match qs bare_request with
              | Some q => obj_lookup q k
              | None => None
              end
          end) /\
     body sent = body bare_request /\
     auth sent = auth bare_request /\
     url sent = url bare_request /\
     method sent = method bare_request).
Proof.
  split.
  - apply (custom_auth_merge print_integer parse_example builtin_unused
             (generic_ctx "httpCustomAuth"
                [("json", JString custom_auth_text)])
             0 [("json", JString custom_auth_text)] custom_auth_text
             [ ("headers", JObject [("A", JString "1")]);
               ("qs", JObject [("b", JString "2")]) ]
             [("A", JString "1")] [("b", JString "2")] full_request);
      try reflexivity.
    + discriminate.
    + unfold distinct_keys.
      repeat split;
        try (intros o [= <-]); simpl; repeat constructor; simpl;
        intros H; repeat (destruct H as [H | H]; try discriminate H);
        exact H.
  - apply (custom_auth_merge print_integer parse_example builtin_unused
             (generic_ctx "httpCustomAuth"
                [("json", JString custom_auth_text)])
             0 [("json", JString custom_auth_text)] custom_auth_text
             [ ("headers", JObject [("A", JString "1")]);
               ("qs", JObject [("b", JString "2")]) ]
             [("A", JString "1")] [("b", JString "2")] bare_request);
      try reflexivity.
    + discriminate.
    + unfold distinct_keys.
      repeat split;
        try (intros o [=]); simpl; repeat constructor; simpl;
        intros H; repeat (destruct H as [H | H]; try discriminate H);
        exact H.
Defined.

Example custom_auth_without_headers :
  dispatch print_integer parse_example builtin_unused
    (generic_ctx "httpCustomAuth" [("json", JString custom_auth_text)])
    "genericCredentialType" 0 bare_request
  = Ok (httpRequest
          (set_qs (set_headers bare_request [("A", JString "1")])
             [("b", JString "2")])).
Proof. reflexivity. Qed.

Lemma custom_auth_null_json_witness :
  dispatch print_integer parse_literal builtin_unused
    (generic_ctx "httpCustomAuth" [("json", JString "null")])
    "genericCredentialType" 0 example_request
  = Throw (TypeError "Cannot read properties of null (reading 'headers')").
Proof.
  apply (custom_auth_null_json print_integer parse_literal builtin_unused
           (generic_ctx "httpCustomAuth" [("json", JString "null")])
           0 [("json", JString "null")] "null" example_request);
    try reflexivity.
  discriminate.
Defined.

Lemma strategies_own_their_fields_witness :
  url (request_of (httpRequest
         (set_headers example_request
            [("Accept", JString "application/json");
             ("X-Key", JString "v1")])))
  = url example_request /\
  method (request_of (httpRequest
            (set_headers example_request
               [("Accept", JString "application/json");
                ("X-Key", JString "v1")])))
  = method example_request /\
  (auth (request_of (httpRequest
           (set_headers example_request
              [("Accept", JString "application/json");
               ("X-Key", JString "v1")])))
   = auth example_request \/
   "httpHeaderAuth" = "httpBasicAuth" \/
   "httpHeaderAuth" = "httpDigestAuth") /\
  (headers (request_of (httpRequest
              (set_headers example_request
                 [("Accept", JString "application/json");
                  ("X-Key", JString "v1")])))
   = headers example_request \/
   "httpHeaderAuth" = "httpHeaderAuth" \/
   "httpHeaderAuth" = "httpCustomAuth") /\
  (qs (request_of (httpRequest
         (set_headers example_request
            [("Accept", JString "application/json");
             ("X-Key", JString "v1")])))
   = qs example_request \/
   "httpHeaderAuth" = "httpQueryAuth" \/
   "httpHeaderAuth" = "httpCustomAuth") /\
  (body (request_of (httpRequest
           (set_headers example_request
              [("Accept", JString "application/json");
               ("X-Key", JString "v1")])))
   = body example_request \/
   "httpHeaderAuth" = "httpCustomAuth").
Proof.
  apply (strategies_own_their_fields print_integer parse_literal builtin_unused
           (generic_ctx "httpHeaderAuth"
              [("name", JString "X-Key"); ("value", JString "v1")])
           "genericCredentialType" 0 "httpHeaderAuth" example_request);
    reflexivity.
Defined.

Lemma delegating_strategies_pass_the_request_witness :
  request_of (requestOAuth1 "oAuth1Api" example_request) = example_request /\
  ("genericCredentialType" = "genericCredentialType" ->
   "oAuth1Api" = "oAuth1Api" ->
   requestOAuth1 "oAuth1Api" example_request
   = requestOAuth1 "oAuth1Api" example_request) /\
  ("genericCredentialType" <> "genericCredentialType" ->
   "genericCredentialType" <> "predefinedCredentialType" ->
   requestOAuth1 "oAuth1Api" example_request = httpRequest example_request).
Proof.
  apply (delegating_strategies_pass_the_request print_integer parse_literal builtin_unused
           (generic_ctx "oAuth1Api" []) "genericCredentialType" 0
           "oAuth1Api" example_request).
  - intros _. split; [reflexivity|].
    simpl. intros H. repeat (destruct H as [H | H]; try discriminate H).
    exact H.
  - reflexivity.
Defined.

Lemma html_elementsToOmit_only_as_string_witness :
  exists f options,
    configureResponseOptimizer print_integer parse_literal stringify_unused
      (get_dotted builtin_unused) set_unused unset_unused cheerio_example
      convert_example builtin_unused html_ctx 0 = Ok f /\
    options
    = match @inl string (list string) "" with
      | inl s =>
          Some (map (fun sel => {| selector := sel; format := "skip" |})
                  (map trim (split ","%char s)))
      | inr _ => None
      end /\
    (@inl string (list string) "" = inl "" ->
     options = Some [ {| selector := ""; format := "skip" |} ]) /\
    (forall response elements texts,
       cheerio_example response "li" = Ok elements ->
       Forall2 (fun el text => convert_example (innerHtml el) options = Ok text)
         elements texts ->
       f (JString response)
       = Ok (stringify_unused (JArray (map JString
               (map normalizeWhitespace texts))))) /\
    (forall response el elements e,
       cheerio_example response "li" = Ok (el :: elements) ->
       convert_example (innerHtml el) options = Throw e ->
       f (JString response) = Throw e).
Proof.
  apply (html_elementsToOmit_only_as_string print_integer parse_literal
           stringify_unused (get_dotted builtin_unused) set_unused
           unset_unused cheerio_example convert_example builtin_unused
           html_ctx 0 "li" (inl ""));
    reflexivity.
Defined.

(** With the default [elementsToOmit], a flattener that rejects the empty
    selector makes the html optimizer throw on the first matched element. *)
Example html_default_elementsToOmit_throws :
  optimize print_integer parse_literal stringify_unused
    (get_dotted builtin_unused) set_unused unset_unused cheerio_example
    convert_example builtin_unused html_ctx 0 (JString "<li>One</li>")
  = Throw (CollaboratorError "Invalid selector").
Proof. reflexivity. Qed.

Example html_unparsable_selector_throws :
  optimizeHtml stringify_unused cheerio_example convert_example
    html_ctx 0 "li[" false [] (JString "<li>One</li>")
  = Throw (CollaboratorError "Unmatched selector").
Proof. reflexivity. Qed.

Lemma json_rejects_what_is_not_an_object_witness :
  optimizeJson parse_literal stringify_unused (get_dotted builtin_unused) set_unused
    unset_unused builtin_unused (json_ctx "all") 5 (JString "null")
  = Throw (NodeOperationError (getNode (json_ctx "all"))
             "The response type must be an object or an array of objects" 5).
Proof.
  apply (json_rejects_what_is_not_an_object parse_literal stringify_unused
           (get_dotted builtin_unused) set_unused unset_unused builtin_unused (json_ctx "all") 5
           (JString "null") JNull);
    reflexivity.
Defined.

Lemma json_unknown_projection_is_empty_witness :
  optimizeJson parse_literal stringify_unused (get_dotted builtin_unused) set_unused
    unset_unused builtin_unused (json_ctx "only") 0 two_items
  = Ok (stringify_unused (JArray [])).
Proof.
  apply (json_unknown_projection_is_empty parse_literal stringify_unused
           (get_dotted builtin_unused) set_unused unset_unused builtin_unused (json_ctx "only") 0
           two_items two_items "" "only"
           [ JObject [("a", JString "1")]; JObject [("a", JString "2")] ]
           (inr []));
    try reflexivity.
  simpl. intros H. repeat (destruct H as [H | H]; try discriminate H).
  exact H.
Defined.

Lemma json_projection_is_one_to_one_witness :
  exists out,
    optimizeJson parse_literal stringify_unused (get_dotted builtin_unused) set_unused
      unset_unused builtin_unused (json_ctx "except") 0 two_items
    = Ok (stringify_unused (JArray out)) /\
    List.length out
    = List.length
        [ JObject [("a", JString "1")]; JObject [("a", JString "2")] ] /\
    (parseFields (inr []) = [] -> "except" = "except" ->
     out = [ JObject [("a", JString "1")]; JObject [("a", JString "2")] ]) /\
    (parseFields (inr []) = [] -> "except" = "selected" ->
     out = map (fun _ => JObject [])
             [ JObject [("a", JString "1")]; JObject [("a", JString "2")] ]).
Proof.
  apply (json_projection_is_one_to_one parse_literal stringify_unused
           (get_dotted builtin_unused) set_unused unset_unused builtin_unused (json_ctx "except") 0
           two_items two_items "" "except"
           [ JObject [("a", JString "1")]; JObject [("a", JString "2")] ]
           (inr []));
    try reflexivity.
  right; reflexivity.
Defined.

Lemma json_all_without_dataField_witness :
  optimizeJson parse_literal stringify_unused (get_dotted builtin_unused) set_unused
    unset_unused builtin_unused (json_ctx "all") 0 (JObject [("a", JString "1")])
  = Ok (stringify_unused (JArray [JObject [("a", JString "1")]])).
Proof.
  apply (json_all_without_dataField parse_literal stringify_unused
           (get_dotted builtin_unused) set_unused unset_unused builtin_unused (json_ctx "all") 0
           (JObject [("a", JString "1")]));
    reflexivity.
Defined.

Lemma unknown_responseType_falls_back_witness :
  exists f,
    configureResponseOptimizer print_integer parse_literal stringify_unused
      (get_dotted builtin_unused) set_unused unset_unused cheerio_unused convert_unused builtin_unused
      (optimizer_ctx "xml" 0) 0 = Ok f /\
    (forall response,
       f response = serialize print_integer stringify_unused response) /\
    (forall s, f (JString s) = Ok s).
Proof.
  apply (unknown_responseType_falls_back print_integer parse_literal
           stringify_unused (get_dotted builtin_unused) set_unused unset_unused cheerio_unused
           convert_unused builtin_unused (optimizer_ctx "xml" 0) 0 "xml");
    try reflexivity.
  simpl. intros H. repeat (destruct H as [H | H]; try discriminate H).
  exact H.
Defined.

Example normalize_example :
  normalizeWhitespace
    (String.concat (String "010"%char EmptyString)
       ["  One  two"; "three   "; " four  "])
  = "One twothree four".
Proof. reflexivity. Qed.

Example fields_example :
  parseFields (inl " a , b.c,d ") = ["a"; "b.c"; "d"] /\
  parseFields (inl "") = [""].
Proof. split; reflexivity. Qed.

Example text_fractional_maxLength :
  optimizeText (optimizer_ctx "text" 0) 0 (Finite 5 (-1)) (JString "abcdefgh")
  = Ok "ab".
Proof. reflexivity. Qed.
